(** * Stock adviser: indicator engine, signal generator and signal fusion

    A shallow embedding of [technical_analysis.py] (class [TechnicalAnalyzer])
    and of [_combine_signals] of [main.py], with the properties of the
    specification proved over it.

    Numbers.  Python and numpy floats are embedded as extended rationals
    ([float]): a missing value [NaN], the two infinities, and exact finite
    values.  Rounding and the sign of zero are not modelled; everything else
    (NaN-propagating arithmetic, comparisons that are false on NaN, division
    by zero giving an infinity or NaN as numpy does) is.

    Objects.  A pandas DataFrame is an object on a heap: the indicator
    functions assign columns to the object they are given and return that
    same reference.  Python dicts are finite maps keyed by strings.

    Effects.  Exceptions, [try]/[except] and [logger.error] are embedded in a
    state-and-exception monad [M]; the state survives a raised exception, as
    a mutated object does in Python. *)

From Stdlib Require Import QArith Qabs Qround Lqa.
From stdpp Require Import gmap strings list fin_maps sorting pretty.
From AAC_tactics Require Import AAC.

Local Open Scope string_scope.
Local Open Scope list_scope.
Local Open Scope stdpp_scope.

(** ** Floats *)

Inductive float : Type :=
  | NaN
  | PInf
  | NInf
  | Fin (q : Q).

Definition Qltb (a b : Q) : bool := negb (Qle_bool b a).

Definition isna (x : float) : bool :=
  match x with NaN => true | _ => false end.

Definition isinf (x : float) : bool :=
  match x with PInf | NInf => true | _ => false end.

Definition fneg (x : float) : float :=
  match x with
  | NaN => NaN
  | PInf => NInf
  | NInf => PInf
  | Fin a => Fin (- a)
  end.

Definition fabs (x : float) : float :=
  match x with
  | NaN => NaN
  | PInf | NInf => PInf
  | Fin a => Fin (Qabs a)
  end.

Definition fadd (x y : float) : float :=
  match x, y with
  | NaN, _ | _, NaN => NaN
  | PInf, NInf | NInf, PInf => NaN
  | PInf, _ | _, PInf => PInf
  | NInf, _ | _, NInf => NInf
  | Fin a, Fin b => Fin (a + b)
  end.

Definition fsub (x y : float) : float := fadd x (fneg y).

(** Sign of a float: [Some Gt] when positive, [Some Lt] when negative,
    [Some Eq] for zero, [None] for NaN. *)
Definition fsign (x : float) : option comparison :=
  match x with
  | NaN => None
  | PInf => Some Gt
  | NInf => Some Lt
  | Fin a => Some (a ?= 0)%Q
  end.

Definition fmul (x y : float) : float :=
  match x, y with
  | Fin a, Fin b => Fin (a * b)
  | _, _ =>
      match fsign x, fsign y with
      | Some Lt, Some Lt | Some Gt, Some Gt => PInf
      | Some Lt, Some Gt | Some Gt, Some Lt => NInf
      | _, _ => NaN
      end
  end.

(** numpy division: a finite non-zero value over zero is an infinity, zero
    over zero is NaN, a finite value over an infinity is zero. *)
Definition fdiv (x y : float) : float :=
  match x, y with
  | NaN, _ | _, NaN => NaN
  | Fin a, Fin b =>
      if Qeq_bool b 0 then
        match (a ?= 0)%Q with Gt => PInf | Lt => NInf | Eq => NaN end
      else Fin (a / b)
  | Fin _, _ => Fin 0
  | _, Fin b => match (b ?= 0)%Q with Lt => fneg x | _ => x end
  | _, _ => NaN
  end.

(** Comparisons: false as soon as one side is NaN. *)
Definition flt (x y : float) : bool :=
  match x, y with
  | NaN, _ | _, NaN => false
  | _, NInf => false
  | NInf, _ => true
  | PInf, _ => false
  | _, PInf => true
  | Fin a, Fin b => Qltb a b
  end.

Definition fle (x y : float) : bool :=
  match x, y with
  | NaN, _ | _, NaN => false
  | NInf, _ => true
  | _, PInf => true
  | _, NInf => false
  | PInf, _ => false
  | Fin a, Fin b => Qle_bool a b
  end.

Definition fgt (x y : float) : bool := flt y x.
Definition fge (x y : float) : bool := fle y x.

Definition feqb (x y : float) : bool :=
  match x, y with
  | PInf, PInf | NInf, NInf => true
  | Fin a, Fin b => Qeq_bool a b
  | _, _ => false
  end.

(** Python's builtin [min(a, b)]: [b] when [b < a], else [a]. *)
Definition py_min (a b : float) : float := if flt b a then b else a.

(** [np.maximum]: NaN when either side is NaN. *)
Definition np_maximum (a b : float) : float :=
  match a, b with
  | NaN, _ | _, NaN => NaN
  | _, _ => if flt a b then b else a
  end.

(** [np.sign]. *)
Definition np_sign (x : float) : float :=
  match fsign x with
  | None => NaN
  | Some Gt => Fin 1
  | Some Lt => Fin (-1)
  | Some Eq => Fin 0
  end.

(** Equality of floats up to the representation of the rational. *)
Definition float_eq (x y : float) : Prop :=
  match x, y with
  | NaN, NaN | PInf, PInf | NInf, NInf => True
  | Fin a, Fin b => (a == b)%Q
  | _, _ => False
  end.

(** ** Series (pandas): aligned sequences of floats *)

Abbreviation Series := (list float).

Definition series_add (a b : Series) : Series := zip_with fadd a b.
Definition series_sub (a b : Series) : Series := zip_with fsub a b.
Definition series_mul (a b : Series) : Series := zip_with fmul a b.
Definition series_div (a b : Series) : Series := zip_with fdiv a b.
Definition series_scale (a : Series) (k : float) : Series := (λ x, fmul x k) <$> a.
Definition series_lscale (k : float) (a : Series) : Series := (λ x, fmul k x) <$> a.
Definition series_neg (a : Series) : Series := fneg <$> a.
Definition series_abs (a : Series) : Series := fabs <$> a.
Definition series_maximum (a b : Series) : Series := zip_with np_maximum a b.

(** [s.shift(k)]: the values move [k] places down, NaN fills the top. *)
Definition shift (k : nat) (s : Series) : Series :=
  replicate (k `min` length s) NaN ++ take (length s - k) s.

(** [s.diff()]. *)
Definition diff (s : Series) : Series := series_sub s (shift 1 s).

(** [s.where(cond, other)]. *)
Definition series_where (s : Series) (cond : list bool) (other : float) : Series :=
  zip_with (λ x (c : bool), if c then x else other) s cond.

Definition series_gt (a b : Series) : list bool := zip_with fgt a b.
Definition series_lt (a b : Series) : list bool := zip_with flt a b.
Definition series_gt0 (a : Series) : list bool := (λ x, fgt x (Fin 0)) <$> a.
Definition series_lt0 (a : Series) : list bool := (λ x, flt x (Fin 0)) <$> a.

Definition fillna (s : Series) (v : float) : Series :=
  (λ x, if isna x then v else x) <$> s.

Definition fsum (l : list float) : float := fold_left fadd l (Fin 0).

Definition fmean (l : list float) : float :=
  fdiv (fsum l) (Fin (inject_Z (Z.of_nat (length l)))).

Definition fmin_list (l : list float) : float :=
  match l with
  | [] => NaN
  | x :: r => fold_left (λ m y, if flt y m then y else m) r x
  end.

Definition fmax_list (l : list float) : float :=
  match l with
  | [] => NaN
  | x :: r => fold_left (λ m y, if flt m y then y else m) r x
  end.

(** The rolling kernels of pandas see an infinity as a missing value. *)
Definition prep (x : float) : float := if isinf x then NaN else x.

(** [s.rolling(window=w).agg()]: the aggregate of the trailing [w] values,
    missing while fewer than [w] observations are in the window. *)
Definition rolling (w : nat) (agg : list float → float) (s : Series) : Series :=
  (λ i : nat,
     if (i + 1 <? w)%nat then NaN
     else
       let win := prep <$> take w (drop (i + 1 - w) s) in
       if existsb isna win then NaN else agg win) <$> seq 0 (length s).

(** [s.cumsum()]: a NaN stays NaN and does not enter the running sum. *)
Fixpoint cumsum_from (acc : float) (s : Series) : Series :=
  match s with
  | [] => []
  | x :: r =>
      if isna x then NaN :: cumsum_from acc r
      else fadd acc x :: cumsum_from (fadd acc x) r
  end.

Definition cumsum (s : Series) : Series := cumsum_from (Fin 0) s.

(** [s.ewm(span=n).mean()] with the defaults [adjust=True],
    [ignore_na=False], [min_periods=0]: the recursion of pandas, seeded with
    the first observation. *)
Fixpoint ewm_from (old_wt_factor weighted old_wt : float) (s : Series) : Series :=
  match s with
  | [] => []
  | cur :: r =>
      if isna weighted then
        if isna cur then weighted :: ewm_from old_wt_factor weighted old_wt r
        else cur :: ewm_from old_wt_factor cur old_wt r
      else
        let old_wt := fmul old_wt old_wt_factor in
        if isna cur then weighted :: ewm_from old_wt_factor weighted old_wt r
        else
          let weighted :=
            if feqb weighted cur then weighted
            else fdiv (fadd (fmul old_wt weighted) (fmul (Fin 1) cur))
                      (fadd old_wt (Fin 1)) in
          weighted :: ewm_from old_wt_factor weighted (fadd old_wt (Fin 1)) r
  end.

Definition ewm_mean (span : nat) (s : Series) : Series :=
  match s with
  | [] => []
  | x :: r =>
      let alpha := (2 / (inject_Z (Z.of_nat span) + 1))%Q in
      x :: ewm_from (Fin (1 - alpha)) x (Fin 1) r
  end.

(** [s.tail(n)] and [s.mean()] (which skips missing values). *)
Definition tail (n : nat) (s : Series) : Series := drop (length s - n) s.

Definition series_mean (s : Series) : float :=
  let obs := filter (λ x, isna x = false) s in
  match obs with
  | [] => NaN
  | _ => fmean obs
  end.

(** [np.average(x, weights=np.arange(1, len(x) + 1))]. *)
Definition np_average_arange (x : list float) : float :=
  let ws := (λ k : nat, Fin (inject_Z (Z.of_nat (S k)))) <$> seq 0 (length x) in
  fdiv (fsum (zip_with fmul x ws)) (fsum ws).

(** ** Exceptions, data frames and the heap *)

Inductive exn : Type :=
  | KeyError (key : string)
  | IndexError (msg : string)
  | NameError (name : string)
  | Exception (msg : string).

(** [str(e)]. *)
Definition exn_str (e : exn) : string :=
  match e with
  | KeyError k => "'" +:+ k +:+ "'"
  | IndexError m => m
  | NameError n => "name '" +:+ n +:+ "' is not defined"
  | Exception m => m
  end.

Inductive result (A : Type) : Type :=
  | Ok (a : A)
  | Raise (e : exn).
Arguments Ok {A} a.
Arguments Raise {A} e.

(** A frame: the length of its index and its (numeric) columns by name. *)
Record DataFrame : Type := mkDataFrame {
  nrows : nat;
  columns : gmap string Series
}.

Definition loc : Type := positive.

Inductive level : Type := ERROR | DEBUG.

(** The state: the frames on the heap and the records written to the
    logger. *)
Record state : Type := mkState {
  heap : gmap loc DataFrame;
  log : list (level * string)
}.

Definition M (A : Type) : Type := state → state * result A.

Global Instance M_ret : MRet M := λ A a s, (s, Ok a).

Global Instance M_bind : MBind M := λ A B f m s,
  match m s with
  | (s', Ok a) => f a s'
  | (s', Raise e) => (s', Raise e)
  end.

Definition raise {A} (e : exn) : M A := λ s, (s, Raise e).

(** [try: m  except Exception as e: h e]. *)
Definition try_except {A} (m : M A) (h : exn → M A) : M A :=
  λ s, match m s with
       | (s', Raise e) => h e s'
       | r => r
       end.

Definition lift {A} (r : result A) : M A := λ s, (s, r).

Definition logger_error (msg : string) : M unit :=
  λ s, (mkState (heap s) (log s ++ [(ERROR, msg)]), Ok tt).

Definition logger_debug (msg : string) : M unit :=
  λ s, (mkState (heap s) (log s ++ [(DEBUG, msg)]), Ok tt).

(** Reading the frame behind a reference. *)
Definition deref (data : loc) : M DataFrame :=
  λ s, match heap s !! data with
       | Some df => (s, Ok df)
       | None => (s, Raise (NameError "data"))
       end.

(** [data.empty]: no rows or no columns. *)
Definition df_empty (df : DataFrame) : bool :=
  (nrows df =? 0)%nat || bool_decide (columns df = ∅).

(** [data[name]], a [KeyError] when the column is absent. *)
Definition getcol (data : loc) (name : string) : M Series :=
  df ← deref data;
  match columns df !! name with
  | Some s => mret s
  | None => raise (KeyError name)
  end.

(** [name in data.columns]. *)
Definition has_col (data : loc) (name : string) : M bool :=
  df ← deref data;
  mret (bool_decide (is_Some (columns df !! name))).

Definition df_set (name : string) (s : Series) (df : DataFrame) : DataFrame :=
  mkDataFrame (nrows df) (<[name := s]> (columns df)).

(** [data[name] = s]: the frame behind [data] is updated in place. *)
Definition store (data : loc) (df : DataFrame) : M unit :=
  λ st, (mkState (<[data := df]> (heap st)) (log st), Ok tt).

Definition setcol (data : loc) (name : string) (s : Series) : M unit :=
  df ← deref data;
  store data (df_set name s df).

(** [data[name] = c] for a scalar [c]: the value is repeated on every row. *)
Definition setcol_const (data : loc) (name : string) (c : float) : M unit :=
  df ← deref data;
  setcol data name (replicate (nrows df) c).

(** [s.iloc[-k]] for [k ≥ 1], an [IndexError] when out of bounds. *)
Definition iloc_neg (k : nat) (s : Series) : result float :=
  if (k <=? length s)%nat then
    match s !! (length s - k)%nat with
    | Some x => Ok x
    | None => Raise (IndexError "single positional indexer is out-of-bounds")
    end
  else Raise (IndexError "single positional indexer is out-of-bounds").

Definition col_iloc (data : loc) (name : string) (k : nat) : M float :=
  s ← getcol data name; lift (iloc_neg k s).

Global Instance M_fmap : FMap M := λ A B f m, x ← m; mret (f x).

(** ** Configuration ([config.py]) *)

Module Config.
Definition RSI_PERIOD : nat := 14.
Definition MACD_FAST : nat := 12.
Definition MACD_SLOW : nat := 26.
Definition MACD_SIGNAL : nat := 9.
Definition BOLLINGER_PERIOD : nat := 20.
Definition BOLLINGER_STD : float := Fin 2.
End Config.

(** ** The environment: optional talib and the numeric library *)

(** The functions of talib the analyzer calls.  [talib_CDL name] is
    [getattr(talib, name)] when [hasattr(talib, name)]. *)
Record TaLib : Type := mkTaLib {
  talib_RSI : Series → nat → result Series;
  talib_MACD : Series → nat → nat → nat → result (Series * Series * Series);
  talib_BBANDS : Series → nat → float → float → result (Series * Series * Series);
  talib_STOCH : Series → Series → Series → nat → nat → nat → result (Series * Series);
  talib_WILLR : Series → Series → Series → nat → result Series;
  talib_ATR : Series → Series → Series → nat → result Series;
  talib_ADX : Series → Series → Series → nat → result Series;
  talib_CDL : string → option (Series → Series → Series → Series → result Series)
}.

(** What the module finds around it: [talib] is [Some] when [import talib]
    succeeded; [fsqrt] is the square root behind [rolling(...).std()];
    [fmt2f x] is the text of [f'{x:.2f}']; [np_polyfit1 xs ys] is
    [np.polyfit(xs, ys, 1)] (slope, intercept); [dbscan eps min_samples pts]
    is the label list of [DBSCAN(eps, min_samples).fit(pts).labels_]. *)
Class Env : Type := mkEnv {
  talib : option TaLib;
  fsqrt : float → float;
  fmt2f : float → string;
  np_polyfit1 : list float → list float → result (float * float);
  dbscan : float → nat → list float → result (list Z)
}.

(** ** Signals and pattern events (Python dicts) *)

Inductive pyval : Type :=
  | VStr (s : string)
  | VNum (x : float).

(** A signal dict.  The keys every reader looks at are fields, absent when
    [None]; the supporting metrics are in [extra].  [individual_signals] is
    the dict of family signals the Combined signal was computed from (in
    Python a reference to the dict under construction; the embedding keeps
    its contents at the time of the call). *)
#[warnings="-register-all"]
Inductive Signal : Type := mkSignal {
  signal : option string;
  strength : option float;
  reason : option string;
  extra : gmap string pyval;
  individual_signals : option (gmap string Signal)
}.


(** A pattern event dict: the common keys as fields, the pattern-specific
    attributes in [pe_attrs]. *)
Record PatternEvent : Type := mkPatternEvent {
  pe_pattern : string;
  pe_date : float;
  pe_type : string;
  pe_strength : float;
  pe_attrs : gmap string pyval
}.

Section Analyzer.
Context `{env : Env}.

Definition TALIB_AVAILABLE : bool :=
  match talib with Some _ => true | None => false end.

(** ** TechnicalAnalyzer: the fields set by [__init__] *)

Definition rsi_period : nat := Config.RSI_PERIOD.
Definition macd_fast : nat := Config.MACD_FAST.
Definition macd_slow : nat := Config.MACD_SLOW.
Definition macd_signal : nat := Config.MACD_SIGNAL.
Definition bollinger_period : nat := Config.BOLLINGER_PERIOD.
Definition bollinger_std : float := Config.BOLLINGER_STD.

(** [rolling(...).std()]: the sample standard deviation (ddof = 1). *)
Definition fstd (l : list float) : float :=
  let m := fmean l in
  let sq := (λ x, fmul (fsub x m) (fsub x m)) <$> l in
  fsqrt (fdiv (fsum sq) (Fin (inject_Z (Z.of_nat (length l)) - 1))).

(** [data[name] = e]. *)
Definition assign (data : loc) (name : string) (e : M Series) : M unit :=
  s ← e; setcol data name s.

(** ** Indicator engine *)

Definition _calculate_moving_averages (data : loc) : M loc :=
  try_except
    (assign data "SMA_5" (rolling 5 fmean <$> getcol data "Close");;
     assign data "SMA_10" (rolling 10 fmean <$> getcol data "Close");;
     assign data "SMA_20" (rolling 20 fmean <$> getcol data "Close");;
     assign data "SMA_50" (rolling 50 fmean <$> getcol data "Close");;
     assign data "SMA_100" (rolling 100 fmean <$> getcol data "Close");;
     assign data "SMA_200" (rolling 200 fmean <$> getcol data "Close");;
     assign data "EMA_12" (ewm_mean 12 <$> getcol data "Close");;
     assign data "EMA_26" (ewm_mean 26 <$> getcol data "Close");;
     assign data "EMA_50" (ewm_mean 50 <$> getcol data "Close");;
     assign data "EMA_200" (ewm_mean 200 <$> getcol data "Close");;
     assign data "WMA_20" (rolling 20 np_average_arange <$> getcol data "Close"))
    (λ e, logger_error ("Error calculating moving averages: " +:+ exn_str e));;
  mret data.

(** [100 - (100 / (1 + r))], element by element. *)
Definition hundred_minus (r : Series) : Series :=
  (λ x, fsub (Fin 100) (fdiv (Fin 100) (fadd (Fin 1) x))) <$> r.

Definition _calculate_rsi (data : loc) : M loc :=
  try_except
    (match talib with
     | Some t =>
         assign data "RSI"
           (close ← getcol data "Close"; lift (talib_RSI t close rsi_period))
     | None =>
         delta ← diff <$> getcol data "Close";
         let gain :=
           rolling rsi_period fmean (series_where delta (series_gt0 delta) (Fin 0)) in
         let loss :=
           rolling rsi_period fmean
             (series_neg (series_where delta (series_lt0 delta) (Fin 0))) in
         let rs := series_div gain loss in
         setcol data "RSI" (hundred_minus rs)
     end;;
     setcol_const data "RSI_Overbought" (Fin 70);;
     setcol_const data "RSI_Oversold" (Fin 30))
    (λ e, logger_error ("Error calculating RSI: " +:+ exn_str e));;
  mret data.

Definition _calculate_macd (data : loc) : M loc :=
  try_except
    ('(macd, macd_signal_line, macd_hist) ←
       match talib with
       | Some t =>
           close ← getcol data "Close";
           lift (talib_MACD t close macd_fast macd_slow macd_signal)
       | None =>
           ema_fast ← ewm_mean macd_fast <$> getcol data "Close";
           ema_slow ← ewm_mean macd_slow <$> getcol data "Close";
           let macd := series_sub ema_fast ema_slow in
           let macd_signal_line := ewm_mean macd_signal macd in
           let macd_hist := series_sub macd macd_signal_line in
           mret (macd, macd_signal_line, macd_hist)
       end;
     setcol data "MACD" macd;;
     setcol data "MACD_Signal" macd_signal_line;;
     setcol data "MACD_Histogram" macd_hist)
    (λ e, logger_error ("Error calculating MACD: " +:+ exn_str e));;
  mret data.

Definition _calculate_bollinger_bands (data : loc) : M loc :=
  try_except
    ('(upper, middle, lower) ←
       match talib with
       | Some t =>
           close ← getcol data "Close";
           lift (talib_BBANDS t close bollinger_period bollinger_std bollinger_std)
       | None =>
           middle ← rolling bollinger_period fmean <$> getcol data "Close";
           std ← rolling bollinger_period fstd <$> getcol data "Close";
           let upper := series_add middle (series_scale std bollinger_std) in
           let lower := series_sub middle (series_scale std bollinger_std) in
           mret (upper, middle, lower)
       end;
     setcol data "BB_Upper" upper;;
     setcol data "BB_Middle" middle;;
     setcol data "BB_Lower" lower;;
     setcol data "BB_Width" (series_div (series_sub upper lower) middle);;
     close ← getcol data "Close";
     setcol data "BB_Position"
       (series_div (series_sub close lower) (series_sub upper lower)))
    (λ e, logger_error ("Error calculating Bollinger Bands: " +:+ exn_str e));;
  mret data.

Definition _calculate_stochastic (data : loc) : M loc :=
  try_except
    ('(slowk, slowd) ←
       match talib with
       | Some t =>
           high ← getcol data "High";
           low ← getcol data "Low";
           close ← getcol data "Close";
           lift (talib_STOCH t high low close 14 3 3)
       | None =>
           low_min ← rolling 14 fmin_list <$> getcol data "Low";
           high_max ← rolling 14 fmax_list <$> getcol data "High";
           close ← getcol data "Close";
           let slowk :=
             series_lscale (Fin 100)
               (series_div (series_sub close low_min) (series_sub high_max low_min)) in
           let slowd := rolling 3 fmean slowk in
           mret (slowk, slowd)
       end;
     setcol data "Stoch_K" slowk;;
     setcol data "Stoch_D" slowd)
    (λ e, logger_error ("Error calculating Stochastic: " +:+ exn_str e));;
  mret data.

Definition _calculate_williams_r (data : loc) : M loc :=
  try_except
    (match talib with
     | Some t =>
         assign data "Williams_R"
           (high ← getcol data "High";
            low ← getcol data "Low";
            close ← getcol data "Close";
            lift (talib_WILLR t high low close 14))
     | None =>
         high_max ← rolling 14 fmax_list <$> getcol data "High";
         low_min ← rolling 14 fmin_list <$> getcol data "Low";
         close ← getcol data "Close";
         setcol data "Williams_R"
           (series_lscale (Fin (-100))
              (series_div (series_sub high_max close) (series_sub high_max low_min)))
     end)
    (λ e, logger_error ("Error calculating Williams %R: " +:+ exn_str e));;
  mret data.

Definition _calculate_atr (data : loc) : M loc :=
  try_except
    (match talib with
     | Some t =>
         assign data "ATR"
           (high ← getcol data "High";
            low ← getcol data "Low";
            close ← getcol data "Close";
            lift (talib_ATR t high low close 14))
     | None =>
         high_low ← (high ← getcol data "High"; low ← getcol data "Low";
                     mret (series_sub high low));
         high_close ← (high ← getcol data "High"; close ← getcol data "Close";
                       mret (series_abs (series_sub high (shift 1 close))));
         low_close ← (low ← getcol data "Low"; close ← getcol data "Close";
                      mret (series_abs (series_sub low (shift 1 close))));
         let true_range :=
           series_maximum high_low (series_maximum high_close low_close) in
         setcol data "ATR" (rolling 14 fmean true_range)
     end)
    (λ e, logger_error ("Error calculating ATR: " +:+ exn_str e));;
  mret data.

(** [(high + low + close) / 3]. *)
Definition typical_price_of (data : loc) : M Series :=
  high ← getcol data "High";
  low ← getcol data "Low";
  close ← getcol data "Close";
  mret ((λ x, fdiv x (Fin 3)) <$> series_add (series_add high low) close).

Definition _calculate_volume_indicators (data : loc) : M loc :=
  try_except
    (assign data "OBV"
       (close ← getcol data "Close";
        volume ← getcol data "Volume";
        mret (cumsum (fillna (series_mul (np_sign <$> diff close) volume) (Fin 0))));;
     assign data "VWAP"
       (close ← getcol data "Close";
        volume ← getcol data "Volume";
        volume' ← getcol data "Volume";
        mret (series_div (cumsum (series_mul close volume)) (cumsum volume')));;
     typical_price ← typical_price_of data;
     money_flow ← series_mul typical_price <$> getcol data "Volume";
     let positive_flow :=
       rolling 14 fsum
         (series_where money_flow
            (series_gt typical_price (shift 1 typical_price)) (Fin 0)) in
     let negative_flow :=
       rolling 14 fsum
         (series_where money_flow
            (series_lt typical_price (shift 1 typical_price)) (Fin 0)) in
     let money_ratio := series_div positive_flow negative_flow in
     setcol data "MFI" (hundred_minus money_ratio))
    (λ e, logger_error ("Error calculating volume indicators: " +:+ exn_str e));;
  mret data.

Definition _calculate_momentum_indicators (data : loc) : M loc :=
  try_except
    (assign data "ROC"
       (close ← getcol data "Close";
        close10 ← shift 10 <$> getcol data "Close";
        close10' ← shift 10 <$> getcol data "Close";
        mret (series_scale (series_div (series_sub close close10) close10') (Fin 100)));;
     assign data "Momentum"
       (close ← getcol data "Close";
        close10 ← shift 10 <$> getcol data "Close";
        mret (series_sub close close10));;
     typical_price ← typical_price_of data;
     let sma_tp := rolling 20 fmean typical_price in
     let mean_deviation :=
       rolling 20 fmean (series_abs (series_sub typical_price sma_tp)) in
     setcol data "CCI"
       (series_div (series_sub typical_price sma_tp)
          (series_lscale (Fin 0.015) mean_deviation)))
    (λ e, logger_error ("Error calculating momentum indicators: " +:+ exn_str e));;
  mret data.

(** [lambda x: x[x > 0].sum() / len(x) if len(x) > 0 else 0]. *)
Definition di_plus_window (x : list float) : float :=
  if (0 <? length x)%nat then
    fdiv (fsum (filter (λ v, fgt v (Fin 0) = true) x))
         (Fin (inject_Z (Z.of_nat (length x))))
  else Fin 0.

(** [lambda x: abs(x[x < 0].sum()) / len(x) if len(x) > 0 else 0]. *)
Definition di_minus_window (x : list float) : float :=
  if (0 <? length x)%nat then
    fdiv (fabs (fsum (filter (λ v, flt v (Fin 0) = true) x)))
         (Fin (inject_Z (Z.of_nat (length x))))
  else Fin 0.

Definition _calculate_trend_indicators (data : loc) : M loc :=
  try_except
    (match talib with
     | Some t =>
         assign data "ADX"
           (high ← getcol data "High";
            low ← getcol data "Low";
            close ← getcol data "Close";
            lift (talib_ADX t high low close 14))
     | None => assign data "ADX" (rolling 14 fstd <$> getcol data "Close")
     end;;
     assign data "SAR" (rolling 5 fmin_list <$> getcol data "Low");;
     assign data "DI_Plus"
       (rolling 14 di_plus_window <$> (diff <$> getcol data "Close"));;
     assign data "DI_Minus"
       (rolling 14 di_minus_window <$> (diff <$> getcol data "Close")))
    (λ e, logger_error ("Error calculating trend indicators: " +:+ exn_str e));;
  mret data.

Definition required_cols : list string :=
  ["Open"; "High"; "Low"; "Close"; "Volume"].

(** The [for col in required_cols] loop: [Some col] for the first required
    column that is not in the frame (where the function logs and returns). *)
Fixpoint first_missing (df : DataFrame) (cols : list string) : option string :=
  match cols with
  | [] => None
  | col :: rest =>
      match columns df !! col with
      | None => Some col
      | Some _ => first_missing df rest
      end
  end.

Definition calculate_all_indicators (data : loc) : M loc :=
  df ← deref data;
  if df_empty df then mret data
  else
    try_except
      (df ← deref data;
       match first_missing df required_cols with
       | Some col =>
           logger_error ("Missing required column: " +:+ col);;
           mret data
       | None =>
           data ← _calculate_moving_averages data;
           data ← _calculate_rsi data;
           data ← _calculate_macd data;
           data ← _calculate_bollinger_bands data;
           data ← _calculate_stochastic data;
           data ← _calculate_williams_r data;
           data ← _calculate_atr data;
           data ← _calculate_volume_indicators data;
           data ← _calculate_momentum_indicators data;
           data ← _calculate_trend_indicators data;
           mret data
       end)
      (λ e, logger_error ("Error calculating indicators: " +:+ exn_str e);;
            mret data).


(** ** Signal generator *)

(** [{'signal': 'neutral', 'strength': 0, 'reason': 'Insufficient data'}]. *)
Definition insufficient_data : Signal :=
  mkSignal (Some "neutral") (Some (Fin 0)) (Some "Insufficient data") ∅ None.

(** [a and b], where [b] is evaluated only when [a] is true. *)
Definition py_and (a : bool) (b : M bool) : M bool :=
  if a then b else mret false.

Definition _generate_rsi_signals (data : loc) : M Signal :=
  latest_rsi ← col_iloc data "RSI" 1;
  if isna latest_rsi then mret insufficient_data
  else
    let '(sig, str, rsn) :=
      if fgt latest_rsi (Fin 70) then
        ("sell", py_min (fdiv (fsub latest_rsi (Fin 70)) (Fin 30)) (Fin 1),
         "RSI overbought at " +:+ fmt2f latest_rsi)
      else if flt latest_rsi (Fin 30) then
        ("buy", py_min (fdiv (fsub (Fin 30) latest_rsi) (Fin 30)) (Fin 1),
         "RSI oversold at " +:+ fmt2f latest_rsi)
      else
        ("hold", Fin 0.5, "RSI neutral at " +:+ fmt2f latest_rsi) in
    mret (mkSignal (Some sig) (Some str) (Some rsn)
            {[ "value" := VNum latest_rsi ]} None).

Definition _generate_macd_signals (data : loc) : M Signal :=
  latest_macd ← col_iloc data "MACD" 1;
  latest_signal ← col_iloc data "MACD_Signal" 1;
  latest_hist ← col_iloc data "MACD_Histogram" 1;
  if isna latest_macd || isna latest_signal then mret insufficient_data
  else
    bullish ← py_and (fgt latest_macd latest_signal)
                (prev_macd ← col_iloc data "MACD" 2;
                 prev_signal ← col_iloc data "MACD_Signal" 2;
                 mret (fle prev_macd prev_signal));
    '(sig, str, rsn) ←
      (if bullish : bool then
         mret ("buy", py_min (fdiv (fabs latest_hist) (Fin 2)) (Fin 1),
               "MACD bullish crossover")
       else
         bearish ← py_and (flt latest_macd latest_signal)
                     (prev_macd ← col_iloc data "MACD" 2;
                      prev_signal ← col_iloc data "MACD_Signal" 2;
                      mret (fge prev_macd prev_signal));
         if bearish : bool then
           mret ("sell", py_min (fdiv (fabs latest_hist) (Fin 2)) (Fin 1),
                 "MACD bearish crossover")
         else mret ("hold", Fin 0.5, "MACD no crossover")) : M (string * float * string);
    mret (mkSignal (Some sig) (Some str) (Some rsn)
            {[ "macd" := VNum latest_macd;
               "signal_line" := VNum latest_signal;
               "histogram" := VNum latest_hist ]} None).

Definition _generate_bollinger_signals (data : loc) : M Signal :=
  latest_close ← col_iloc data "Close" 1;
  latest_upper ← col_iloc data "BB_Upper" 1;
  latest_lower ← col_iloc data "BB_Lower" 1;
  latest_position ← col_iloc data "BB_Position" 1;
  if isna latest_close || isna latest_upper || isna latest_lower
  then mret insufficient_data
  else
    let '(sig, str, rsn) :=
      if fle latest_close latest_lower then
        ("buy",
         py_min (fmul (fdiv (fsub latest_lower latest_close) latest_lower) (Fin 10))
                (Fin 1),
         "Price at or below lower Bollinger Band")
      else if fge latest_close latest_upper then
        ("sell",
         py_min (fmul (fdiv (fsub latest_close latest_upper) latest_upper) (Fin 10))
                (Fin 1),
         "Price at or above upper Bollinger Band")
      else
        ("hold", Fin 0.5,
         "Price within Bollinger Bands (position: " +:+ fmt2f latest_position +:+ ")") in
    mret (mkSignal (Some sig) (Some str) (Some rsn)
            {[ "position" := VNum latest_position;
               "upper_band" := VNum latest_upper;
               "lower_band" := VNum latest_lower ]} None).

Definition _generate_ma_signals (data : loc) : M Signal :=
  latest_close ← col_iloc data "Close" 1;
  latest_sma20 ← col_iloc data "SMA_20" 1;
  latest_sma50 ← col_iloc data "SMA_50" 1;
  latest_sma200 ← col_iloc data "SMA_200" 1;
  if isna latest_sma20 || isna latest_sma50 then mret insufficient_data
  else
    golden ← py_and (fgt latest_sma20 latest_sma50)
               (prev_sma20 ← col_iloc data "SMA_20" 2;
                prev_sma50 ← col_iloc data "SMA_50" 2;
                mret (fle prev_sma20 prev_sma50));
    '(sig, str, rsn) ←
      (if golden : bool then
         mret ("buy", Fin 0.8, "Golden Cross (20 SMA crosses above 50 SMA)")
       else
         death ← py_and (flt latest_sma20 latest_sma50)
                   (prev_sma20 ← col_iloc data "SMA_20" 2;
                    prev_sma50 ← col_iloc data "SMA_50" 2;
                    mret (fge prev_sma20 prev_sma50));
         if death : bool then
           mret ("sell", Fin 0.8, "Death Cross (20 SMA crosses below 50 SMA)")
         else mret ("hold", Fin 0.5, "No MA crossover")) : M (string * float * string);
    let trend := if fgt latest_close latest_sma200 then "bullish" else "bearish" in
    mret (mkSignal (Some sig) (Some str) (Some rsn)
            {[ "trend" := VStr trend;
               "sma20" := VNum latest_sma20;
               "sma50" := VNum latest_sma50;
               "sma200" := VNum latest_sma200 ]} None).

Definition _generate_volume_signals (data : loc) : M Signal :=
  latest_volume ← col_iloc data "Volume" 1;
  latest_close ← col_iloc data "Close" 1;
  latest_obv ← col_iloc data "OBV" 1;
  if isna latest_volume || isna latest_obv then mret insufficient_data
  else
    avg_volume ← (λ v, series_mean (tail 20 v)) <$> getcol data "Volume";
    let volume_ratio := fdiv latest_volume avg_volume in
    '(sig, str, rsn) ←
      (if fgt volume_ratio (Fin 2) then
         prev_close ← col_iloc data "Close" 2;
         if fgt latest_close prev_close then
           mret ("buy", py_min (fdiv volume_ratio (Fin 5)) (Fin 1),
                 "High volume price increase (volume ratio: "
                   +:+ fmt2f volume_ratio +:+ ")")
         else
           mret ("sell", py_min (fdiv volume_ratio (Fin 5)) (Fin 1),
                 "High volume price decrease (volume ratio: "
                   +:+ fmt2f volume_ratio +:+ ")")
       else
         mret ("hold", Fin 0.5, "Normal volume (ratio: " +:+ fmt2f volume_ratio +:+ ")"))
      : M (string * float * string);
    mret (mkSignal (Some sig) (Some str) (Some rsn)
            {[ "volume_ratio" := VNum volume_ratio;
               "obv" := VNum latest_obv ]} None).

(** ** Signal fusion *)

Definition signal_weights : gmap string float :=
  {[ "RSI" := Fin 0.2;
     "MACD" := Fin 0.25;
     "Bollinger_Bands" := Fin 0.2;
     "Moving_Averages" := Fin 0.25;
     "Volume" := Fin 0.1 ]}.

(** The body of the loop over [individual_signals.items()], on the pair
    [(total_weight, weighted_score)]. *)
Definition combine_step (signal_name : string) (signal_data : Signal)
    (acc : float * float) : float * float :=
  let '(total_weight, weighted_score) := acc in
  if signal_name =? "Combined" then acc
  else
    match signal_weights !! signal_name, signal signal_data with
    | Some weight, Some sig =>
        let total_weight := fadd total_weight weight in
        let score :=
          if sig =? "buy" then default (Fin 0.5) (strength signal_data)
          else if sig =? "sell" then fneg (default (Fin 0.5) (strength signal_data))
          else Fin 0 in
        (total_weight, fadd weighted_score (fmul score weight))
    | _, _ => acc
    end.

Definition _generate_combined_signal (individual_signals : gmap string Signal)
    : Signal :=
  if bool_decide (individual_signals = ∅) then
    mkSignal (Some "neutral") (Some (Fin 0)) (Some "No signals available") ∅ None
  else
    let '(total_weight, weighted_score) :=
      map_fold combine_step (Fin 0, Fin 0) individual_signals in
    if feqb total_weight (Fin 0) then
      mkSignal (Some "neutral") (Some (Fin 0))
        (Some "No weighted signals available") ∅ None
    else
      let normalized_score := fdiv weighted_score total_weight in
      let '(sig, str, rsn) :=
        if fgt normalized_score (Fin 0.3) then
          ("buy", py_min normalized_score (Fin 1),
           "Multiple indicators suggest bullish momentum")
        else if flt normalized_score (Fin (-0.3)) then
          ("sell", py_min (fabs normalized_score) (Fin 1),
           "Multiple indicators suggest bearish momentum")
        else
          ("hold", Fin 0.5, "Mixed signals, maintaining current position") in
      mkSignal (Some sig) (Some str) (Some rsn)
        {[ "score" := VNum normalized_score ]} (Some individual_signals).

(** A [try] block whose statements update a local dict: the statements run
    in order until one raises; the dict as it stands and the exception, if
    any, come out. *)
Fixpoint run_statements {A} (stmts : list (A → M A)) (local : A) : M (A * option exn) :=
  match stmts with
  | [] => mret (local, None)
  | stmt :: rest =>
      λ s, match stmt local s with
           | (s', Ok local') => run_statements rest local' s'
           | (s', Raise e) => (s', Ok (local, Some e))
           end
  end.

(** [if all(c in data.columns for c in cols): signals[name] = gen(data)]. *)
Definition family_statement (data : loc) (cols : list string) (name : string)
    (gen : loc → M Signal) (signals : gmap string Signal) : M (gmap string Signal) :=
  df ← deref data;
  if forallb (λ c, bool_decide (is_Some (columns df !! c))) cols then
    sig ← gen data; mret (<[name := sig]> signals)
  else mret signals.

Definition generate_signals (data : loc) : M (gmap string Signal) :=
  df ← deref data;
  if df_empty df then mret ∅
  else
    '(signals, err) ←
      run_statements
        [ family_statement data ["RSI"] "RSI" _generate_rsi_signals;
          family_statement data ["MACD"; "MACD_Signal"] "MACD" _generate_macd_signals;
          family_statement data ["BB_Upper"; "BB_Lower"] "Bollinger_Bands"
            _generate_bollinger_signals;
          family_statement data ["SMA_20"; "SMA_50"] "Moving_Averages"
            _generate_ma_signals;
          family_statement data ["OBV"; "Volume"] "Volume" _generate_volume_signals;
          (λ signals, mret (<["Combined" := _generate_combined_signal signals]> signals)) ]
        ∅;
    match err with
    | Some e => logger_error ("Error generating signals: " +:+ exn_str e);; mret signals
    | None => mret signals
    end.


(** ** Pattern detector *)

(** [s[a:b]]. *)
Definition slice (a b : nat) (s : Series) : Series := take (b - a) (drop a s).

(** [s.max()], which skips missing values. *)
Definition series_max (s : Series) : float :=
  fmax_list (filter (λ x, isna x = false) s).

(** [s.idxmax()]: the position of the first largest observation. *)
Definition idxmax (s : Series) : option nat :=
  let m := series_max s in
  fst <$> list_find (λ x, feqb x m = true) s.

Definition float_of_nat (n : nat) : float := Fin (inject_Z (Z.of_nat n)).

(** [data.iloc[idx]['Date'] if 'Date' in data.columns else idx]. *)
Definition date_or_index (data : loc) (idx : nat) : M float :=
  df ← deref data;
  match columns df !! "Date" with
  | Some dates =>
      match dates !! idx with
      | Some d => mret d
      | None => raise (IndexError "single positional indexer is out-of-bounds")
      end
  | None => mret (float_of_nat idx)
  end.

(** [data.iloc[-1]['Date'] if 'Date' in data.columns else len(data) - 1]. *)
Definition last_date_or_index (data : loc) : M float :=
  df ← deref data;
  match columns df !! "Date" with
  | Some dates => lift (iloc_neg 1 dates)
  | None => mret (Fin (inject_Z (Z.of_nat (nrows df)) - 1))
  end.

Definition pattern_functions : list (string * string) :=
  [ ("CDL2CROWS", "Two Crows");
    ("CDL3BLACKCROWS", "Three Black Crows");
    ("CDL3INSIDE", "Three Inside Up/Down");
    ("CDL3LINESTRIKE", "Three-Line Strike");
    ("CDL3OUTSIDE", "Three Outside Up/Down");
    ("CDL3STARSINSOUTH", "Three Stars In The South");
    ("CDL3WHITESOLDIERS", "Three White Soldiers");
    ("CDLABANDONEDBABY", "Abandoned Baby");
    ("CDLADVANCEBLOCK", "Advance Block");
    ("CDLBELTHOLD", "Belt-hold");
    ("CDLBREAKAWAY", "Breakaway");
    ("CDLDARKCLOUDCOVER", "Dark Cloud Cover");
    ("CDLDOJI", "Doji");
    ("CDLDOJISTAR", "Doji Star");
    ("CDLDRAGONFLYDOJI", "Dragonfly Doji");
    ("CDLENGULFING", "Engulfing Pattern");
    ("CDLEVENINGDOJISTAR", "Evening Doji Star");
    ("CDLEVENINGSTAR", "Evening Star");
    ("CDLGAPSIDESIDEWHITE", "Up/Down-gap side-by-side white lines");
    ("CDLGRAVESTONEDOJI", "Gravestone Doji");
    ("CDLHAMMER", "Hammer");
    ("CDLHANGINGMAN", "Hanging Man");
    ("CDLHARAMI", "Harami Pattern");
    ("CDLHARAMICROSS", "Harami Cross Pattern");
    ("CDLHIGHWAVE", "High-Wave Candle");
    ("CDLHIKKAKE", "Hikkake Pattern");
    ("CDLHIKKAKEMOD", "Modified Hikkake Pattern");
    ("CDLHOMINGPIGEON", "Homing Pigeon");
    ("CDLIDENTICAL3CROWS", "Identical Three Crows");
    ("CDLINNECK", "In-Neck Pattern");
    ("CDLINVERTEDHAMMER", "Inverted Hammer");
    ("CDLKICKING", "Kicking");
    ("CDLKICKINGBYLENGTH", "Kicking - bull/bear determined by the longer marubozu");
    ("CDLLADDERBOTTOM", "Ladder Bottom");
    ("CDLLONGLEGGEDDOJI", "Long Legged Doji");
    ("CDLLONGLINE", "Long Line Candle");
    ("CDLMARUBOZU", "Marubozu");
    ("CDLMATCHINGLOW", "Matching Low");
    ("CDLMATHOLD", "Mat Hold");
    ("CDLMORNINGDOJISTAR", "Morning Doji Star");
    ("CDLMORNINGSTAR", "Morning Star");
    ("CDLONNECK", "On-Neck Pattern");
    ("CDLPIERCING", "Piercing Pattern");
    ("CDLRICKSHAWMAN", "Rickshaw Man");
    ("CDLRISEFALL3METHODS", "Rising/Falling Three Methods");
    ("CDLSEPARATINGLINES", "Separating Lines");
    ("CDLSHOOTINGSTAR", "Shooting Star");
    ("CDLSHORTLINE", "Short Line Candle");
    ("CDLSPINNINGTOP", "Spinning Top");
    ("CDLSTALLEDPATTERN", "Stalled Pattern");
    ("CDLSTICKSANDWICH", "Stick Sandwich");
    ("CDLTAKURI", "Takuri (Dragonfly Doji with very long lower shadow)");
    ("CDLTASUKIGAP", "Tasuki Gap");
    ("CDLTHRUSTING", "Thrusting Pattern");
    ("CDLTRISTAR", "Tristar Pattern");
    ("CDLUNIQUE3RIVER", "Unique 3 River");
    ("CDLUPSIDEGAP2CROWS", "Upside Gap Two Crows");
    ("CDLXSIDEGAP3METHODS", "Upside/Downside Gap Three Methods") ].

(** [np.where(result != 0)[0]]. *)
Definition nonzero_positions (res : Series) : list nat :=
  fst <$> filter (λ p : nat * float, feqb (snd p) (Fin 0) = false) (imap pair res).

(** The events of one catalogue entry: one per bar where the talib result
    is not zero. *)
Definition candlestick_events (data : loc) (pattern_name : string)
    (res : Series) : M (list PatternEvent) :=
  df ← deref data;
  mapM (λ idx : nat,
          date ← date_or_index data idx;
          let v := default NaN (res !! idx) in
          mret (mkPatternEvent pattern_name date
                  (if fgt v (Fin 0) then "bullish" else "bearish") (fabs v)
                  {[ "value" := VNum v ]}))
       (filter (λ idx, idx < nrows df) (nonzero_positions res)).

Definition _detect_candlestick_patterns (data : loc) : M (list PatternEvent) :=
  '(patterns, err) ←
    run_statements
      ((λ '(pattern_func, pattern_name) (patterns : list PatternEvent),
          try_except
            (match talib with
             | None => raise (NameError "talib")
             | Some t =>
                 match talib_CDL t pattern_func with
                 | Some func =>
                     open ← getcol data "Open";
                     high ← getcol data "High";
                     low ← getcol data "Low";
                     close ← getcol data "Close";
                     res ← lift (func open high low close);
                     events ← candlestick_events data pattern_name res;
                     mret (patterns ++ events)
                 | None => mret patterns
                 end
             end)
            (λ e, logger_debug ("Error detecting pattern " +:+ pattern_name
                                  +:+ ": " +:+ exn_str e);;
                  mret patterns)) <$> pattern_functions)
      [];
  match err with
  | Some e =>
      logger_error ("Error in candlestick pattern detection: " +:+ exn_str e);;
      mret patterns
  | None => mret patterns
  end.

(** One turn of the head-and-shoulders loop, at pivot [i]. *)
Definition head_and_shoulders_at (data : loc) (i : nat)
    (patterns : list PatternEvent) : M (list PatternEvent) :=
  high ← getcol data "High";
  let left_shoulder := series_max (slice (i - 5) i high) in
  let head := series_max (slice i (i + 5) high) in
  let head_idx := (λ k, i + k) <$> idxmax (slice i (i + 5) high) in
  let right_shoulder := series_max (slice (i + 5) (i + 10) high) in
  if fgt head left_shoulder && fgt head right_shoulder
     && flt (fdiv (fabs (fsub left_shoulder right_shoulder)) left_shoulder) (Fin 0.1)
  then
    date ← match head_idx with
           | Some idx => date_or_index data idx
           | None => raise (Exception "cannot index with NaN")
           end;
    mret (patterns ++
            [mkPatternEvent "Head and Shoulders" date "bearish" (Fin 0.8)
               {[ "left_shoulder" := VNum left_shoulder;
                  "head" := VNum head;
                  "right_shoulder" := VNum right_shoulder ]}])
  else mret patterns.

Definition _detect_head_and_shoulders (data : loc) : M (list PatternEvent) :=
  df ← deref data;
  '(patterns, err) ←
    run_statements
      (if (nrows df <? 20)%nat then []
       else head_and_shoulders_at data <$> seq 10 (nrows df - 10 - 10))
      [];
  match err with
  | Some e =>
      logger_error ("Error detecting head and shoulders: " +:+ exn_str e);;
      mret patterns
  | None => mret patterns
  end.

Definition _detect_triangles (data : loc) : M (list PatternEvent) :=
  df ← deref data;
  try_except
    (if (nrows df <? 20)%nat then mret []
     else
       highs ← tail 20 <$> getcol data "High";
       lows ← tail 20 <$> getcol data "Low";
       let dates := float_of_nat <$> seq 0 (20 `min` nrows df) in
       '(high_slope, high_intercept) ← lift (np_polyfit1 dates highs);
       '(low_slope, low_intercept) ← lift (np_polyfit1 dates lows);
       let pattern_type : option string :=
         if flt (fabs high_slope) (Fin 0.1) && flt (fabs low_slope) (Fin 0.1)
         then Some "Rectangle"
         else if flt high_slope (Fin (-0.1)) && fgt low_slope (Fin 0.1)
         then Some "Ascending Triangle"
         else if flt high_slope (Fin (-0.1)) && flt low_slope (Fin (-0.1))
         then Some "Descending Triangle"
         else if flt high_slope (Fin (-0.1)) && flt (fabs low_slope) (Fin 0.1)
         then Some "Descending Triangle"
         else if flt (fabs high_slope) (Fin 0.1) && fgt low_slope (Fin 0.1)
         then Some "Ascending Triangle"
         else None in
       match pattern_type with
       | None => mret []
       | Some pattern_type =>
           date ← last_date_or_index data;
           mret [mkPatternEvent pattern_type date "neutral" (Fin 0.6)
                   {[ "high_slope" := VNum high_slope;
                      "low_slope" := VNum low_slope ]}]
       end)
    (λ e, logger_error ("Error detecting triangles: " +:+ exn_str e);; mret []).

(** The positions [1 .. len - 2] where [P] holds of the value, its
    predecessor and its successor, with the value there. *)
Definition local_extrema (better : float → float → bool) (xs : list float)
    : list (nat * float) :=
  omap (λ i : nat,
          match xs !! (i - 1)%nat, xs !! i, xs !! (i + 1)%nat with
          | Some p, Some x, Some n =>
              if better x p && better x n then Some (i, x) else None
          | _, _, _ => None
          end)
       (seq 1 (length xs - 2)).

(** [l[-2], l[-1]] when [len(l) >= 2]. *)
Definition last_two {A} (l : list A) : option (A * A) :=
  match reverse l with
  | b :: a :: _ => Some (a, b)
  | _ => None
  end.

Definition _detect_double_patterns (data : loc) : M (list PatternEvent) :=
  df ← deref data;
  '(patterns, err) ←
    (if (nrows df <? 20)%nat then mret ([], None)
     else
       run_statements
         [ (λ patterns : list PatternEvent,
              highs ← tail 20 <$> getcol data "High";
              lows ← tail 20 <$> getcol data "Low";
              mret patterns);
           (λ patterns,
              highs ← tail 20 <$> getcol data "High";
              match last_two (local_extrema fgt highs) with
              | Some (peak1, peak2) =>
                  if flt (fdiv (fabs (fsub (snd peak1) (snd peak2))) (snd peak1))
                         (Fin 0.05)
                  then
                    date ← last_date_or_index data;
                    mret (patterns ++
                            [mkPatternEvent "Double Top" date "bearish" (Fin 0.7)
                               {[ "peak1" := VNum (snd peak1);
                                  "peak2" := VNum (snd peak2) ]}])
                  else mret patterns
              | None => mret patterns
              end);
           (λ patterns,
              lows ← tail 20 <$> getcol data "Low";
              match last_two (local_extrema flt lows) with
              | Some (trough1, trough2) =>
                  if flt (fdiv (fabs (fsub (snd trough1) (snd trough2))) (snd trough1))
                         (Fin 0.05)
                  then
                    date ← last_date_or_index data;
                    mret (patterns ++
                            [mkPatternEvent "Double Bottom" date "bullish" (Fin 0.7)
                               {[ "trough1" := VNum (snd trough1);
                                  "trough2" := VNum (snd trough2) ]}])
                  else mret patterns
              | None => mret patterns
              end) ]
         []);
  match err with
  | Some e =>
      logger_error ("Error detecting double patterns: " +:+ exn_str e);;
      mret patterns
  | None => mret patterns
  end.

Definition _detect_chart_patterns (data : loc) : M (list PatternEvent) :=
  '(patterns, err) ←
    run_statements
      [ (λ patterns, hs ← _detect_head_and_shoulders data; mret (patterns ++ hs));
        (λ patterns, tr ← _detect_triangles data; mret (patterns ++ tr));
        (λ patterns, db ← _detect_double_patterns data; mret (patterns ++ db)) ]
      [];
  match err with
  | Some e =>
      logger_error ("Error in chart pattern detection: " +:+ exn_str e);;
      mret patterns
  | None => mret patterns
  end.

(** [np.unique(labels)]: the distinct labels in increasing order. *)
Definition np_unique (labels : list Z) : list Z :=
  remove_dups (merge_sort Z.le labels).

(** One turn of the loop over the cluster labels. *)
Definition level_of_cluster (data : loc) (all_levels : list float)
    (labels : list Z) (label : Z) (levels : list PatternEvent)
    : M (list PatternEvent) :=
  if bool_decide (label = (-1)%Z) then mret levels
  else
    let cluster_points :=
      fst <$> filter (λ p : float * Z, snd p = label) (zip all_levels labels) in
    let center := fmean cluster_points in
    current_price ← col_iloc data "Close" 1;
    let level_type := if fgt center current_price then "resistance" else "support" in
    date ← last_date_or_index data;
    mret (levels ++
            [mkPatternEvent
               ((if fgt center current_price then "Resistance" else "Support")
                  +:+ " Level")
               date "neutral" (Fin 0.8)
               {[ "level" := VNum center;
                  "level_type" := VStr level_type;
                  "cluster_size" := VNum (float_of_nat (length cluster_points)) ]}]).

Definition _detect_support_resistance (data : loc) : M (list PatternEvent) :=
  df ← deref data;
  '(levels, err) ←
    (if (nrows df <? 20)%nat then mret ([], None)
     else
       λ s,
         match (highs ← tail 50 <$> getcol data "High";
                lows ← tail 50 <$> getcol data "Low";
                let all_levels := highs ++ lows in
                labels ← lift (dbscan (Fin 0.02) 3 all_levels);
                mret (all_levels, labels)) s with
         | (s', Ok (all_levels, labels)) =>
             run_statements
               (level_of_cluster data all_levels labels <$> np_unique labels) [] s'
         | (s', Raise e) => (s', Ok ([], Some e))
         end);
  match err with
  | Some e =>
      logger_error ("Error detecting support/resistance: " +:+ exn_str e);;
      mret levels
  | None => mret levels
  end.

Definition detect_patterns (data : loc) : M (gmap string (list PatternEvent)) :=
  df ← deref data;
  if df_empty df then mret ∅
  else
    '(patterns, err) ←
      run_statements
        [ (λ patterns,
             candlestick_patterns ← _detect_candlestick_patterns data;
             mret (<["candlestick" := candlestick_patterns]> patterns));
          (λ patterns,
             chart_patterns ← _detect_chart_patterns data;
             mret (<["chart" := chart_patterns]> patterns));
          (λ patterns,
             support_resistance ← _detect_support_resistance data;
             mret (<["support_resistance" := support_resistance]> patterns)) ]
        ∅;
    match err with
    | Some e => logger_error ("Error detecting patterns: " +:+ exn_str e);; mret patterns
    | None => mret patterns
    end.

End Analyzer.

(** * Reference definitions, in the words of the specification *)










(** * Frame conditions *)

(** What a computation may do to the heap when it only assigns columns
    named in [names] to the frame behind [data]: every other frame is
    untouched, and the frame behind [data] keeps its rows and every column
    outside [names]. *)
Definition frame_rel (names : list string) (data : loc) (st st' : state) : Prop :=
  (∀ l, l ≠ data → heap st' !! l = heap st !! l)
  ∧ (heap st !! data = None → heap st' !! data = None)
  ∧ (∀ df, heap st !! data = Some df →
       ∃ df', heap st' !! data = Some df'
              ∧ nrows df' = nrows df
              ∧ ∀ c, c ∉ names → columns df' !! c = columns df !! c).

Definition touches {A} (names : list string) (data : loc) (m : M A) : Prop :=
  ∀ st, frame_rel names data st (fst (m st)).


(** [returns a m]: [m] never raises and always yields [a]. *)
Definition returns {A} (a : A) (m : M A) : Prop :=
  ∀ st, ∃ st', m st = (st', Ok a).

(** The columns each step of the engine assigns. *)
Definition moving_average_columns : list string :=
  [ "SMA_5"; "SMA_10"; "SMA_20"; "SMA_50"; "SMA_100"; "SMA_200";
    "EMA_12"; "EMA_26"; "EMA_50"; "EMA_200"; "WMA_20" ].
Definition rsi_columns : list string := [ "RSI"; "RSI_Overbought"; "RSI_Oversold" ].
Definition macd_columns : list string := [ "MACD"; "MACD_Signal"; "MACD_Histogram" ].
Definition bollinger_columns : list string :=
  [ "BB_Upper"; "BB_Middle"; "BB_Lower"; "BB_Width"; "BB_Position" ].
Definition stochastic_columns : list string := [ "Stoch_K"; "Stoch_D" ].
Definition volume_columns : list string := [ "OBV"; "VWAP"; "MFI" ].
Definition momentum_columns : list string := [ "ROC"; "Momentum"; "CCI" ].
Definition trend_columns : list string := [ "ADX"; "SAR"; "DI_Plus"; "DI_Minus" ].

(** [col_at df name k x]: column [name] of [df] holds [x] at the [k]-th bar
    from the end ([k = 1] is the last bar, [k = 2] the one before). *)
Definition col_at (df : DataFrame) (name : string) (k : nat) (x : float) : Prop :=
  ∃ s, columns df !! name = Some s ∧ iloc_neg k s = Ok x.

(** The state with the frame behind [data] replaced. *)
Definition with_frame (st : state) (data : loc) (df : DataFrame) : state :=
  mkState (<[data := df]> (heap st)) (log st).

(** * The series the engine assigns, in closed form

    What the steps of the engine compute from the price columns when talib
    is not available; the run lemmas below show the code assigns exactly
    these. *)

Definition rsi_gain (close : Series) : Series :=
  rolling rsi_period fmean
    (series_where (diff close) (series_gt0 (diff close)) (Fin 0)).

Definition rsi_loss (close : Series) : Series :=
  rolling rsi_period fmean
    (series_neg (series_where (diff close) (series_lt0 (diff close)) (Fin 0))).

Definition manual_rsi (close : Series) : Series :=
  hundred_minus (series_div (rsi_gain close) (rsi_loss close)).

Definition manual_macd (close : Series) : Series :=
  series_sub (ewm_mean macd_fast close) (ewm_mean macd_slow close).

Definition manual_macd_signal (close : Series) : Series :=
  ewm_mean macd_signal (manual_macd close).

Definition manual_macd_hist (close : Series) : Series :=
  series_sub (manual_macd close) (manual_macd_signal close).

Definition typical_price (high low close : Series) : Series :=
  (λ x, fdiv x (Fin 3)) <$> series_add (series_add high low) close.

Definition mfi_positive_flow (high low close volume : Series) : Series :=
  let tp := typical_price high low close in
  rolling 14 fsum
    (series_where (series_mul tp volume) (series_gt tp (shift 1 tp)) (Fin 0)).

Definition mfi_negative_flow (high low close volume : Series) : Series :=
  let tp := typical_price high low close in
  rolling 14 fsum
    (series_where (series_mul tp volume) (series_lt tp (shift 1 tp)) (Fin 0)).

Definition mfi_series (high low close volume : Series) : Series :=
  hundred_minus
    (series_div (mfi_positive_flow high low close volume)
                (mfi_negative_flow high low close volume)).

Definition obv_series (close volume : Series) : Series :=
  cumsum (fillna (series_mul (np_sign <$> diff close) volume) (Fin 0)).


Section ClosedForms.
Context `{env : Env}.

Definition manual_bb_middle (close : Series) : Series :=
  rolling bollinger_period fmean close.

Definition manual_bb_upper (close : Series) : Series :=
  series_add (manual_bb_middle close)
    (series_scale (rolling bollinger_period fstd close) bollinger_std).

Definition manual_bb_lower (close : Series) : Series :=
  series_sub (manual_bb_middle close)
    (series_scale (rolling bollinger_period fstd close) bollinger_std).

End ClosedForms.


Section Families.
Context `{env : Env}.


End Families.

(** The delta of a series of finite closes at bar [k]: missing at the first
    bar, else the close minus the previous close. *)
Definition delta_at (qs : list Q) (k : nat) : float :=
  match k with
  | O => NaN
  | S k' =>
      match qs !! k', qs !! k with
      | Some a, Some b => Fin (b + - a)
      | _, _ => NaN
      end
  end.

(** The deltas in the 14-bar window ending at bar [i] are all non-negative,
    and one of them is positive. *)
Definition window_non_negative (qs : list Q) (i : nat) : Prop :=
  ∀ k d, (i + 1 - rsi_period ≤ k)%nat → (k ≤ i)%nat →
         delta_at qs k = Fin d → (0 <= d)%Q.

Definition window_has_gain (qs : list Q) (i : nat) : Prop :=
  ∃ k d, (i + 1 - rsi_period ≤ k)%nat ∧ (k ≤ i)%nat
         ∧ delta_at qs k = Fin d ∧ (0 < d)%Q.

(** * Example environment and price frames *)

(** A square root on the rationals, to six decimals. *)
Definition approx_sqrt (x : float) : float :=
  match x with
  | Fin q =>
      if Qle_bool 0 q
      then Fin (inject_Z (Z.sqrt (Qfloor (q * 1000000000000))) / 1000000)
      else NaN
  | PInf => PInf
  | _ => NaN
  end.

(** [f'{x:.2f}'], rounding half up. *)
Definition format_2f (x : float) : string :=
  match x with
  | NaN => "nan"
  | PInf => "inf"
  | NInf => "-inf"
  | Fin q =>
      let cents := Qfloor (Qabs q * 100 + 1 / 2) in
      let frac := (cents mod 100)%Z in
      (if Qltb q 0 then "-" else "")
        +:+ pretty (cents / 100)%Z +:+ "."
        +:+ (if (frac <? 10)%Z then "0" else "") +:+ pretty frac
  end.

(** [np.polyfit(xs, ys, 1)] as the exact least-squares line. *)
Definition least_squares_line (xs ys : list float) : result (float * float) :=
  let n := Fin (inject_Z (Z.of_nat (length xs))) in
  let sx := fsum xs in
  let sy := fsum ys in
  let sxy := fsum (zip_with fmul xs ys) in
  let sxx := fsum (zip_with fmul xs xs) in
  let slope :=
    fdiv (fsub (fmul n sxy) (fmul sx sy)) (fsub (fmul n sxx) (fmul sx sx)) in
  Ok (slope, fdiv (fsub sy (fmul slope sx)) n).

(** An installation without talib and without scikit-learn. *)
Definition example_env : Env :=
  {| talib := None;
     fsqrt := approx_sqrt;
     fmt2f := format_2f;
     np_polyfit1 := least_squares_line;
     dbscan := λ _ _ _, Raise (Exception "No module named 'sklearn'") |}.

Definition price_frame (open high low close volume : list Q) : DataFrame :=
  mkDataFrame (length close)
    {[ "Open" := Fin <$> open; "High" := Fin <$> high; "Low" := Fin <$> low;
       "Close" := Fin <$> close; "Volume" := Fin <$> volume ]}.

Definition state_of (df : DataFrame) : state := mkState {[ 1%positive := df ]} [].


(** One bar. *)
Definition one_bar : DataFrame :=
  price_frame [10%Q] [12%Q] [9%Q] [11%Q] [1000%Q].


(** The empty frame, [pd.DataFrame()]. *)
Definition no_bars : DataFrame := mkDataFrame 0 ∅.

(** Sixteen bars of rising closes. *)
Definition rising_closes : list Q :=
  (λ k : nat, inject_Z (100 + Z.of_nat k)) <$> seq 0 16.

Definition rising_bars : DataFrame :=
  price_frame rising_closes rising_closes rising_closes rising_closes
    ((λ _ : nat, 1000%Q) <$> seq 0 16).

(** Fifty-one bars: thirty at 100, twenty at 90, then a jump to 300, which
    takes the 20-bar average above the 50-bar average at the last bar. *)
Definition crossing_closes : list Q :=
  replicate 30 100%Q ++ replicate 20 90%Q ++ [300%Q].

Definition crossing_bars : DataFrame :=
  price_frame crossing_closes crossing_closes crossing_closes crossing_closes
    (replicate 51 1000%Q).

(** [crossing_bars] with the three simple moving averages the signal
    generator reads, as the engine assigns them. *)
Definition crossing_table : DataFrame :=
  df_set "SMA_200" (rolling 200 fmean (Fin <$> crossing_closes))
    (df_set "SMA_50" (rolling 50 fmean (Fin <$> crossing_closes))
       (df_set "SMA_20" (rolling 20 fmean (Fin <$> crossing_closes))
          crossing_bars)).

(** The value of a column at the [k]-th bar from the end, NaN when it cannot
    be read. *)
Definition value_at (df : DataFrame) (name : string) (k : nat) : float :=
  match columns df !! name with
  | Some s => match iloc_neg k s with Ok x => x | Raise _ => NaN end
  | None => NaN
  end.

(** Whether column [name] can be read at the [k]-th bar from the end. *)
Definition readable (df : DataFrame) (name : string) (k : nat) : bool :=
  match columns df !! name with
  | Some s => match iloc_neg k s with Ok _ => true | Raise _ => false end
  | None => false
  end.


(** * Properties *)

(** ** Floats: order and algebra *)

Lemma Qltb_lt (a b : Q) : Qltb a b = true ↔ (a < b)%Q.
Proof.
  unfold Qltb. rewrite negb_true_iff, <- not_true_iff_false, Qle_bool_iff.
  split; [apply Qnot_le_lt | apply Qlt_not_le].
Qed.

Lemma Qltb_ge (a b : Q) : Qltb a b = false ↔ (b <= a)%Q.
Proof.
  unfold Qltb. rewrite negb_false_iff. apply Qle_bool_iff.
Qed.

Lemma Qle_bool_gt (a b : Q) : Qle_bool a b = false ↔ (b < a)%Q.
Proof.
  rewrite <- not_true_iff_false, Qle_bool_iff.
  split; [apply Qnot_le_lt | apply Qlt_not_le].
Qed.

Lemma Qeq_bool_false (a b : Q) : Qeq_bool a b = false ↔ ¬ (a == b)%Q.
Proof. rewrite <- not_true_iff_false, Qeq_bool_iff. reflexivity. Qed.

(** Turns the boolean comparisons of rationals in the context and the goal
    into propositions. *)
Ltac q_props :=
  repeat match goal with
    | H : Qltb _ _ = true |- _ => apply Qltb_lt in H
    | H : Qltb _ _ = false |- _ => apply Qltb_ge in H
    | H : Qle_bool _ _ = true |- _ => apply Qle_bool_iff in H
    | H : Qle_bool _ _ = false |- _ => apply Qle_bool_gt in H
    | H : Qeq_bool _ _ = true |- _ => apply Qeq_bool_iff in H
    | H : Qeq_bool _ _ = false |- _ => apply Qeq_bool_false in H
    | |- Qltb _ _ = true => apply Qltb_lt
    | |- Qltb _ _ = false => apply Qltb_ge
    | |- Qle_bool _ _ = true => apply Qle_bool_iff
    | |- Qle_bool _ _ = false => apply Qle_bool_gt
    | |- Qeq_bool _ _ = true => apply Qeq_bool_iff
    | |- Qeq_bool _ _ = false => apply Qeq_bool_false
    end.

Global Instance float_eq_equiv : Equivalence float_eq.
Proof.
  split.
  - intros []; simpl; auto. reflexivity.
  - intros [] []; simpl; auto. intros; symmetry; auto.
  - intros [] [] []; simpl; auto; try tauto. intros; etransitivity; eauto.
Qed.

Global Instance float_eq_lift : AAC_lift float_eq float_eq.
Proof.
  split; [apply _ |].
  intros x y H x' y' H'; split; intros G;
    [rewrite <- H, <- H' | rewrite H, H']; exact G.
Qed.

Global Instance fadd_proper : Proper (float_eq ==> float_eq ==> float_eq) fadd.
Proof.
  intros [] [] H1 [] [] H2; simpl in *; auto; try tauto.
  rewrite H1, H2. reflexivity.
Qed.

Global Instance fadd_assoc : Associative float_eq fadd.
Proof. intros [] [] []; simpl; auto. ring. Qed.

Global Instance fadd_comm : Commutative float_eq fadd.
Proof. intros [] []; simpl; auto. ring. Qed.

Global Instance fadd_unit : Unit float_eq fadd (Fin 0).
Proof. split; intros []; simpl; auto; ring. Qed.

Global Instance flt_proper : Proper (float_eq ==> float_eq ==> eq) flt.
Proof.
  intros [] [] H1 [] [] H2; simpl in *; auto; try tauto.
  destruct (Qltb q q1) eqn:E1, (Qltb q0 q2) eqn:E2; auto; q_props; lra.
Qed.

Global Instance feqb_proper : Proper (float_eq ==> float_eq ==> eq) feqb.
Proof.
  intros [] [] H1 [] [] H2; simpl in *; auto; try tauto.
  destruct (Qeq_bool q q1) eqn:E1, (Qeq_bool q0 q2) eqn:E2; auto; q_props.
  - exfalso. apply E2. lra.
  - exfalso. apply E1. lra.
Qed.



(** ** Signal fusion *)








(** ** Running the monad *)

Lemma run_bind {A B} (m : M A) (f : A → M B) (s s' : state) (a : A) :
  m s = (s', Ok a) → (m ≫= f) s = f a s'.
Proof. intros H. unfold mbind, M_bind. by rewrite H. Qed.

Lemma run_bind_raise {A B} (m : M A) (f : A → M B) (s s' : state) (e : exn) :
  m s = (s', Raise e) → (m ≫= f) s = (s', Raise e).
Proof. intros H. unfold mbind, M_bind. by rewrite H. Qed.

Lemma run_try_ok {A} (m : M A) (h : exn → M A) (s s' : state) (a : A) :
  m s = (s', Ok a) → try_except m h s = (s', Ok a).
Proof. intros H. unfold try_except. by rewrite H. Qed.

Lemma run_deref (data : loc) (st : state) (df : DataFrame) :
  heap st !! data = Some df → deref data st = (st, Ok df).
Proof. intros H. unfold deref. by rewrite H. Qed.



(** ** Membership in explicit lists of names *)

Ltac list_mem :=
  repeat first [ apply list_elem_of_here | apply list_elem_of_further ].

Ltac list_not_mem :=
  let Hin := fresh "Hin" in
  intros Hin;
  repeat (apply elem_of_cons in Hin as [Hin | Hin]; [discriminate Hin |]);
  by apply elem_of_nil in Hin.


(** ** Frame rules *)

Lemma frame_rel_refl (names : list string) (data : loc) (st : state) :
  frame_rel names data st st.
Proof. repeat split; eauto. Qed.

Lemma frame_rel_trans (names : list string) (data : loc) (s1 s2 s3 : state) :
  frame_rel names data s1 s2 → frame_rel names data s2 s3 →
  frame_rel names data s1 s3.
Proof.
  intros (Ho1 & Hn1 & Hd1) (Ho2 & Hn2 & Hd2). repeat split.
  - intros l Hl. rewrite Ho2, Ho1; done.
  - eauto.
  - intros df Hdf. destruct (Hd1 df Hdf) as (df1 & H1 & Hr1 & Hc1).
    destruct (Hd2 df1 H1) as (df2 & H2 & Hr2 & Hc2).
    exists df2. repeat split; [done | congruence |].
    intros c Hc. rewrite Hc2, Hc1; done.
Qed.

Lemma frame_rel_log (names : list string) (data : loc) (st : state)
    (lg : list (level * string)) :
  frame_rel names data st (mkState (heap st) lg).
Proof. repeat split; eauto. Qed.

Lemma touches_ret {A} names data (a : A) : touches names data (mret a).
Proof. intros st. apply frame_rel_refl. Qed.

Lemma touches_raise {A} names data (e : exn) : touches names data (@raise A e).
Proof. intros st. apply frame_rel_refl. Qed.

Lemma touches_lift {A} names data (r : result A) : touches names data (lift r).
Proof. intros st. apply frame_rel_refl. Qed.

Lemma touches_logger_error names data (msg : string) :
  touches names data (logger_error msg).
Proof. intros st. apply frame_rel_log. Qed.

Lemma touches_logger_debug names data (msg : string) :
  touches names data (logger_debug msg).
Proof. intros st. apply frame_rel_log. Qed.

Lemma touches_deref names data (l : loc) : touches names data (deref l).
Proof. intros st. unfold deref. destruct (heap st !! l); apply frame_rel_refl. Qed.

Lemma touches_bind {A B} names data (m : M A) (f : A → M B) :
  touches names data m → (∀ a, touches names data (f a)) →
  touches names data (m ≫= f).
Proof.
  intros Hm Hf st. unfold mbind, M_bind. specialize (Hm st).
  destruct (m st) as [s' [a | e]]; simpl in *; [| done].
  eapply frame_rel_trans; [done | apply Hf].
Qed.

Lemma touches_fmap {A B} names data (g : A → B) (m : M A) :
  touches names data m → touches names data (g <$> m).
Proof.
  intros Hm. unfold fmap, M_fmap. apply touches_bind; [done |].
  intros a. apply touches_ret.
Qed.

Lemma touches_try_except {A} names data (m : M A) (h : exn → M A) :
  touches names data m → (∀ e, touches names data (h e)) →
  touches names data (try_except m h).
Proof.
  intros Hm Hh st. unfold try_except. specialize (Hm st).
  destruct (m st) as [s' [a | e]]; simpl in *; [done |].
  eapply frame_rel_trans; [done | apply Hh].
Qed.

Lemma touches_getcol names data (l : loc) (name : string) :
  touches names data (getcol l name).
Proof.
  unfold getcol. apply touches_bind; [apply touches_deref |].
  intros df. destruct (columns df !! name); [apply touches_ret | apply touches_raise].
Qed.

Lemma touches_setcol names data (name : string) (s : Series) :
  name ∈ names → touches names data (setcol data name s).
Proof.
  intros Hin st. unfold setcol, mbind, M_bind, deref, store.
  destruct (heap st !! data) as [df |] eqn:Hdf; simpl; [| repeat split; eauto].
  repeat split; simpl.
  - intros l Hl. by rewrite lookup_insert_ne.
  - congruence.
  - intros df0 Hdf0. assert (df0 = df) as -> by congruence.
    exists (df_set name s df). rewrite lookup_insert_eq.
    repeat split. intros c Hc. simpl.
    by rewrite lookup_insert_ne by (intros ->; done).
Qed.

Lemma touches_setcol_const names data (name : string) (c : float) :
  name ∈ names → touches names data (setcol_const data name c).
Proof.
  intros Hin. unfold setcol_const. apply touches_bind; [apply touches_deref |].
  intros df. by apply touches_setcol.
Qed.

Lemma touches_assign names data (name : string) (e : M Series) :
  name ∈ names → touches names data e → touches names data (assign data name e).
Proof.
  intros Hin He. unfold assign. apply touches_bind; [done |].
  intros s. by apply touches_setcol.
Qed.


(** Solves [touches] goals by following the structure of the program. *)
Ltac touches_tac :=
  repeat first
    [ apply touches_ret
    | apply touches_raise
    | apply touches_lift
    | apply touches_logger_error
    | apply touches_logger_debug
    | apply touches_deref
    | apply touches_getcol
    | apply touches_setcol; [list_mem]
    | apply touches_setcol_const; [list_mem]
    | apply touches_assign; [list_mem |]
    | apply touches_fmap
    | apply touches_try_except; [| intros ?]
    | apply touches_bind; [| intros ?]
    | match goal with
      | |- touches _ _ (match ?x with _ => _ end) => destruct x
      | |- touches _ _ (let '(_, _) := ?x in _) => destruct x
      end ].

(** A guarded computation followed by [return data] always returns. *)
Lemma run_guarded {A} (body : M A) (h : exn → M A) (data : loc) (st : state) :
  (∀ e s, ∃ s' a, h e s = (s', Ok a)) →
  ∃ st', (try_except body h;; mret data) st = (st', Ok data).
Proof.
  intros Hh. unfold mbind, M_bind, try_except.
  destruct (body st) as [s' [a | e]]; [by eexists |].
  destruct (Hh e s') as (s'' & a & ->). by eexists.
Qed.

Lemma logger_error_returns (msg : string) (s : state) :
  ∃ s' a, logger_error msg s = (s', Ok a).
Proof. by do 2 eexists. Qed.

Lemma returns_guarded {A} (body : M A) (h : exn → M A) (data : loc) :
  (∀ e s, ∃ s' a, h e s = (s', Ok a)) →
  returns data (try_except body h;; mret data).
Proof. intros Hh st. by apply run_guarded. Qed.



Section Engine.
Context `{env : Env}.

(** ** Error handling of the indicator engine *)


(** C4.  On an empty frame the indicator computation returns the (empty)
    frame it was given, pattern detection returns the empty dict and signal
    generation returns the empty dict; none raises, logs or touches the
    heap. *)
Theorem empty_series_short_circuits (data : loc) (df : DataFrame) (st : state) :
  heap st !! data = Some df → df_empty df = true →
  calculate_all_indicators data st = (st, Ok data)
  ∧ detect_patterns data st = (st, Ok ∅)
  ∧ generate_signals data st = (st, Ok ∅).
Proof.
  intros Hdf Hempty.
  unfold calculate_all_indicators, detect_patterns, generate_signals.
  rewrite !(run_bind _ _ _ _ _ (run_deref _ _ _ Hdf)). rewrite Hempty.
  done.
Qed.

(** ** Which columns each step assigns *)

Lemma moving_averages_touches (data : loc) :
  touches moving_average_columns data (_calculate_moving_averages data).
Proof. unfold _calculate_moving_averages. touches_tac. Qed.

Lemma rsi_touches (data : loc) : touches rsi_columns data (_calculate_rsi data).
Proof. unfold _calculate_rsi. touches_tac. Qed.

Lemma macd_touches (data : loc) : touches macd_columns data (_calculate_macd data).
Proof. unfold _calculate_macd. touches_tac. Qed.

Lemma bollinger_touches (data : loc) :
  touches bollinger_columns data (_calculate_bollinger_bands data).
Proof. unfold _calculate_bollinger_bands. touches_tac. Qed.

Lemma stochastic_touches (data : loc) :
  touches stochastic_columns data (_calculate_stochastic data).
Proof. unfold _calculate_stochastic. touches_tac. Qed.

Lemma williams_r_touches (data : loc) :
  touches ["Williams_R"] data (_calculate_williams_r data).
Proof. unfold _calculate_williams_r. touches_tac. Qed.

Lemma atr_touches (data : loc) : touches ["ATR"] data (_calculate_atr data).
Proof. unfold _calculate_atr. touches_tac. Qed.

Lemma volume_indicators_touches (data : loc) :
  touches volume_columns data (_calculate_volume_indicators data).
Proof. unfold _calculate_volume_indicators, typical_price_of. touches_tac. Qed.

Lemma momentum_indicators_touches (data : loc) :
  touches momentum_columns data (_calculate_momentum_indicators data).
Proof. unfold _calculate_momentum_indicators, typical_price_of. touches_tac. Qed.

Lemma trend_indicators_touches (data : loc) :
  touches trend_columns data (_calculate_trend_indicators data).
Proof. unfold _calculate_trend_indicators. touches_tac. Qed.


(** Every step returns the reference it was given. *)
Ltac step_returns := apply returns_guarded; intros; apply logger_error_returns.





Lemma stochastic_returns (data : loc) : returns data (_calculate_stochastic data).
Proof. step_returns. Qed.

Lemma williams_r_returns (data : loc) : returns data (_calculate_williams_r data).
Proof. step_returns. Qed.

Lemma atr_returns (data : loc) : returns data (_calculate_atr data).
Proof. step_returns. Qed.


Lemma momentum_indicators_returns (data : loc) :
  returns data (_calculate_momentum_indicators data).
Proof. step_returns. Qed.

Lemma trend_indicators_returns (data : loc) :
  returns data (_calculate_trend_indicators data).
Proof. step_returns. Qed.


(** ** Frame effect of the indicator engine *)


End Engine.

(** ** Reading and writing columns *)

Lemma run_getcol (data : loc) (st : state) (df : DataFrame) (name : string)
    (s : Series) :
  heap st !! data = Some df → columns df !! name = Some s →
  getcol data name st = (st, Ok s).
Proof.
  intros Hdf Hcol. unfold getcol.
  rewrite (run_bind _ _ _ _ _ (run_deref _ _ _ Hdf)). by rewrite Hcol.
Qed.

Lemma run_getcol_missing (data : loc) (st : state) (df : DataFrame) (name : string) :
  heap st !! data = Some df → columns df !! name = None →
  getcol data name st = (st, Raise (KeyError name)).
Proof.
  intros Hdf Hcol. unfold getcol.
  rewrite (run_bind _ _ _ _ _ (run_deref _ _ _ Hdf)). by rewrite Hcol.
Qed.

Lemma run_col_iloc (data : loc) (st : state) (df : DataFrame) (name : string)
    (k : nat) (x : float) :
  heap st !! data = Some df → col_at df name k x →
  col_iloc data name k st = (st, Ok x).
Proof.
  intros Hdf (s & Hcol & Hx). unfold col_iloc.
  rewrite (run_bind _ _ _ _ _ (run_getcol _ _ _ _ _ Hdf Hcol)).
  unfold lift. by rewrite Hx.
Qed.

Lemma run_setcol (data : loc) (st : state) (df : DataFrame) (name : string)
    (s : Series) :
  heap st !! data = Some df →
  setcol data name s st = (with_frame st data (df_set name s df), Ok tt).
Proof.
  intros Hdf. unfold setcol.
  by rewrite (run_bind _ _ _ _ _ (run_deref _ _ _ Hdf)).
Qed.

Lemma with_frame_lookup (st : state) (data : loc) (df : DataFrame) :
  heap (with_frame st data df) !! data = Some df.
Proof. apply lookup_insert_eq. Qed.

Lemma with_frame_twice (st : state) (data : loc) (df df' : DataFrame) :
  with_frame (with_frame st data df) data df' = with_frame st data df'.
Proof. unfold with_frame. simpl. by rewrite insert_insert_eq. Qed.

(** ** Order facts used by the crossover rules *)

Lemma flt_asym (x y : float) : flt x y = true → flt y x = false.
Proof.
  destruct x as [| | | a], y as [| | | b]; simpl; try done.
  intros H. q_props. lra.
Qed.

Section Signals.
Context `{env : Env}.

(** ** Moving-average signals *)

(** The body of [_generate_ma_signals] once the four latest values and the
    two previous ones have been read and the latest averages are defined. *)
Lemma ma_signals_run (data : loc) (df : DataFrame) (st : state)
    (c s20 s50 s200 p20 p50 : float) :
  heap st !! data = Some df →
  col_at df "Close" 1 c → col_at df "SMA_20" 1 s20 → col_at df "SMA_50" 1 s50 →
  col_at df "SMA_200" 1 s200 →
  col_at df "SMA_20" 2 p20 → col_at df "SMA_50" 2 p50 →
  isna s20 = false → isna s50 = false →
  _generate_ma_signals data st
  = (st,
     Ok (let '(sig, str, rsn) :=
           if fgt s20 s50 && fle p20 p50
           then ("buy", Fin 0.8, "Golden Cross (20 SMA crosses above 50 SMA)")
           else if flt s20 s50 && fge p20 p50
           then ("sell", Fin 0.8, "Death Cross (20 SMA crosses below 50 SMA)")
           else ("hold", Fin 0.5, "No MA crossover") in
         mkSignal (Some sig) (Some str) (Some rsn)
           {[ "trend" := VStr (if fgt c s200 then "bullish" else "bearish");
              "sma20" := VNum s20; "sma50" := VNum s50; "sma200" := VNum s200 ]}
           None)).
Proof.
  intros Hdf (sc & Hc & Hci) (s20' & H20 & H20i) (s50' & H50 & H50i)
    (s200' & H200 & H200i) (q20 & Hp20 & Hp20i) (q50 & Hp50 & Hp50i) Hn20 Hn50.
  assert (q20 = s20') as -> by congruence.
  assert (q50 = s50') as -> by congruence.
  unfold _generate_ma_signals, py_and, col_iloc, getcol, deref, lift.
  unfold mbind, M_bind, mret, M_ret.
  repeat (progress (rewrite ?Hdf, ?Hc, ?H20, ?H50, ?H200, ?Hci, ?H20i, ?H50i,
                      ?H200i, ?Hn20, ?Hn50; cbv beta iota)).
  cbn [orb].
  destruct (fgt s20 s50) eqn:Hgt.
  - repeat (progress (rewrite ?Hdf, ?H20, ?H50, ?Hp20i, ?Hp50i; cbv beta iota)).
    destruct (fle p20 p50); cbn [andb]; [reflexivity |].
    rewrite (flt_asym s50 s20 Hgt). reflexivity.
  - cbn [andb].
    destruct (flt s20 s50) eqn:Hlt; [| reflexivity].
    repeat (progress (rewrite ?Hdf, ?H20, ?H50, ?Hp20i, ?Hp50i; cbv beta iota)).
    destruct (fge p20 p50); reflexivity.
Qed.

End Signals.

(** Symbolic execution of a step on a state whose frame is known. *)
Ltac rewrite_cols :=
  repeat match goal with
    | H : columns ?d !! ?c = Some _ |- context [columns ?d !! ?c] => rewrite H
    | H : heap ?s !! ?l = Some _ |- context [heap ?s !! ?l] => rewrite H
    end.

Ltac run_frame :=
  unfold typical_price_of;
  unfold assign, setcol_const, setcol, getcol, deref, store, lift,
    try_except, raise, fmap, M_fmap, mbind, M_bind, mret, M_ret;
  repeat (progress
            (cbv beta iota; cbn [heap log columns nrows df_set fst snd];
             rewrite ?insert_insert_eq, ?lookup_insert_eq;
             repeat (rewrite lookup_insert_ne by done);
             rewrite_cols)).

(** Turns the final state of a symbolic run into [with_frame]. *)
Ltac finish_run :=
  rewrite ?insert_insert_eq;
  do 2 eexists; split; [reflexivity |];
  split; [apply lookup_insert_eq |];
  cbn [columns nrows df_set];
  repeat split;
  repeat first [ rewrite lookup_insert_eq | rewrite lookup_insert_ne by done ];
  try done.

(** Carries what is known of the columns of [dfold] over a step that does
    not assign them. *)
Ltac carry Hfr dfold :=
  repeat match goal with
    | H : columns dfold !! ?c = _ |- _ =>
        rewrite <- (Hfr c ltac:(list_not_mem)) in H
    end.

Section Pipeline.
Context `{env : Env}.

Lemma step_frame (names : list string) (m : M loc) (data : loc) (st : state)
    (df : DataFrame) :
  returns data m → touches names data m → heap st !! data = Some df →
  ∃ st' df',
    m st = (st', Ok data)
    ∧ heap st' !! data = Some df'
    ∧ nrows df' = nrows df
    ∧ ∀ c, c ∉ names → columns df' !! c = columns df !! c.
Proof.
  intros Hret Htouch Hdf. destruct (Hret st) as [st' Hst'].
  specialize (Htouch st). rewrite Hst' in Htouch.
  destruct Htouch as (_ & _ & Hd). destruct (Hd df Hdf) as (df' & ? & ? & ?).
  by exists st', df'.
Qed.

Lemma moving_averages_run (data : loc) (df : DataFrame) (st : state) (close : Series) :
  heap st !! data = Some df → columns df !! "Close" = Some close →
  ∃ st' df',
    _calculate_moving_averages data st = (st', Ok data)
    ∧ heap st' !! data = Some df'
    ∧ nrows df' = nrows df
    ∧ columns df' !! "SMA_20" = Some (rolling 20 fmean close)
    ∧ columns df' !! "SMA_50" = Some (rolling 50 fmean close)
    ∧ columns df' !! "SMA_200" = Some (rolling 200 fmean close).
Proof.
  intros Hdf Hclose. unfold _calculate_moving_averages.
  run_frame. finish_run.
Qed.

Lemma rsi_run (data : loc) (df : DataFrame) (st : state) (close : Series) :
  talib = None →
  heap st !! data = Some df → columns df !! "Close" = Some close →
  ∃ st' df',
    _calculate_rsi data st = (st', Ok data)
    ∧ heap st' !! data = Some df'
    ∧ nrows df' = nrows df
    ∧ columns df' !! "RSI" = Some (manual_rsi close).
Proof.
  intros Htalib Hdf Hclose. unfold _calculate_rsi. rewrite Htalib.
  run_frame. finish_run.
Qed.

Lemma macd_run (data : loc) (df : DataFrame) (st : state) (close : Series) :
  talib = None →
  heap st !! data = Some df → columns df !! "Close" = Some close →
  ∃ st' df',
    _calculate_macd data st = (st', Ok data)
    ∧ heap st' !! data = Some df'
    ∧ nrows df' = nrows df
    ∧ columns df' !! "MACD" = Some (manual_macd close)
    ∧ columns df' !! "MACD_Signal" = Some (manual_macd_signal close)
    ∧ columns df' !! "MACD_Histogram" = Some (manual_macd_hist close).
Proof.
  intros Htalib Hdf Hclose. unfold _calculate_macd. rewrite Htalib.
  run_frame. finish_run.
Qed.

Lemma bollinger_run (data : loc) (df : DataFrame) (st : state) (close : Series) :
  talib = None →
  heap st !! data = Some df → columns df !! "Close" = Some close →
  ∃ st' df',
    _calculate_bollinger_bands data st = (st', Ok data)
    ∧ heap st' !! data = Some df'
    ∧ nrows df' = nrows df
    ∧ columns df' !! "BB_Upper" = Some (manual_bb_upper close)
    ∧ columns df' !! "BB_Lower" = Some (manual_bb_lower close)
    ∧ columns df' !! "BB_Position"
      = Some (series_div (series_sub close (manual_bb_lower close))
                (series_sub (manual_bb_upper close) (manual_bb_lower close))).
Proof.
  intros Htalib Hdf Hclose. unfold _calculate_bollinger_bands. rewrite Htalib.
  run_frame. finish_run.
Qed.

Lemma volume_indicators_run (data : loc) (df : DataFrame) (st : state)
    (high low close volume : Series) :
  heap st !! data = Some df →
  columns df !! "High" = Some high → columns df !! "Low" = Some low →
  columns df !! "Close" = Some close → columns df !! "Volume" = Some volume →
  ∃ st' df',
    _calculate_volume_indicators data st = (st', Ok data)
    ∧ heap st' !! data = Some df'
    ∧ nrows df' = nrows df
    ∧ columns df' !! "OBV" = Some (obv_series close volume)
    ∧ columns df' !! "MFI" = Some (mfi_series high low close volume).
Proof.
  intros Hdf Hhigh Hlow Hclose Hvolume. unfold _calculate_volume_indicators.
  run_frame. finish_run.
Qed.

Lemma step_frame_of_run (names : list string) (m : M loc) (data : loc)
    (st st' : state) (df df' : DataFrame) :
  touches names data m → heap st !! data = Some df →
  m st = (st', Ok data) → heap st' !! data = Some df' →
  ∀ c, c ∉ names → columns df' !! c = columns df !! c.
Proof.
  intros Htouch Hdf Hrun Hdf'. specialize (Htouch st). rewrite Hrun in Htouch.
  destruct Htouch as (_ & _ & Hd). destruct (Hd df Hdf) as (df'' & H1 & _ & H3).
  cbn [fst] in H1. by assert (df'' = df') as -> by congruence.
Qed.

(** The whole engine on a price frame, when talib is not available: the
    columns the signal generator reads, in closed form. *)
Lemma calculate_all_indicators_manual (data : loc) (df : DataFrame) (st : state)
    (open high low close volume : Series) :
  talib = None →
  heap st !! data = Some df → df_empty df = false →
  columns df !! "Open" = Some open → columns df !! "High" = Some high →
  columns df !! "Low" = Some low → columns df !! "Close" = Some close →
  columns df !! "Volume" = Some volume →
  ∃ st' df',
    calculate_all_indicators data st = (st', Ok data)
    ∧ heap st' !! data = Some df'
    ∧ nrows df' = nrows df
    ∧ columns df' !! "Close" = Some close
    ∧ columns df' !! "Volume" = Some volume
    ∧ columns df' !! "SMA_20" = Some (rolling 20 fmean close)
    ∧ columns df' !! "SMA_50" = Some (rolling 50 fmean close)
    ∧ columns df' !! "SMA_200" = Some (rolling 200 fmean close)
    ∧ columns df' !! "RSI" = Some (manual_rsi close)
    ∧ columns df' !! "MACD" = Some (manual_macd close)
    ∧ columns df' !! "MACD_Signal" = Some (manual_macd_signal close)
    ∧ columns df' !! "MACD_Histogram" = Some (manual_macd_hist close)
    ∧ columns df' !! "BB_Upper" = Some (manual_bb_upper close)
    ∧ columns df' !! "BB_Lower" = Some (manual_bb_lower close)
    ∧ columns df' !! "BB_Position"
      = Some (series_div (series_sub close (manual_bb_lower close))
                (series_sub (manual_bb_upper close) (manual_bb_lower close)))
    ∧ columns df' !! "OBV" = Some (obv_series close volume)
    ∧ columns df' !! "MFI" = Some (mfi_series high low close volume).
Proof.
  intros Htalib Hdf Hne Hopen Hhigh Hlow Hclose Hvolume.
  unfold calculate_all_indicators.
  rewrite (run_bind _ _ _ _ _ (run_deref _ _ _ Hdf)). rewrite Hne.
  unfold try_except at 1.
  rewrite (run_bind _ _ _ _ _ (run_deref _ _ _ Hdf)).
  unfold first_missing, required_cols.
  rewrite Hopen, Hhigh, Hlow, Hclose, Hvolume.
  (* moving averages *)
  destruct (moving_averages_run data df st close Hdf Hclose)
    as (s1 & df1 & Hr1 & Hh1 & Hn1 & Hsma20 & Hsma50 & Hsma200).
  pose proof (step_frame_of_run _ _ _ _ _ _ _
                (moving_averages_touches data) Hdf Hr1 Hh1) as Hf1.
  rewrite (run_bind _ _ _ _ _ Hr1). carry Hf1 df.
  (* RSI *)
  destruct (rsi_run data df1 s1 close Htalib Hh1 Hclose)
    as (s2 & df2 & Hr2 & Hh2 & Hn2 & Hrsi).
  pose proof (step_frame_of_run _ _ _ _ _ _ _ (rsi_touches data) Hh1 Hr2 Hh2) as Hf2.
  rewrite (run_bind _ _ _ _ _ Hr2). carry Hf2 df1.
  (* MACD *)
  destruct (macd_run data df2 s2 close Htalib Hh2 Hclose)
    as (s3 & df3 & Hr3 & Hh3 & Hn3 & Hmacd & Hmacds & Hmacdh).
  pose proof (step_frame_of_run _ _ _ _ _ _ _ (macd_touches data) Hh2 Hr3 Hh3) as Hf3.
  rewrite (run_bind _ _ _ _ _ Hr3). carry Hf3 df2.
  (* Bollinger bands *)
  destruct (bollinger_run data df3 s3 close Htalib Hh3 Hclose)
    as (s4 & df4 & Hr4 & Hh4 & Hn4 & Hbbu & Hbbl & Hbbp).
  pose proof (step_frame_of_run _ _ _ _ _ _ _
                (bollinger_touches data) Hh3 Hr4 Hh4) as Hf4.
  rewrite (run_bind _ _ _ _ _ Hr4). carry Hf4 df3.
  (* stochastic, Williams %R, ATR *)
  destruct (step_frame _ _ data s4 df4 (stochastic_returns data)
              (stochastic_touches data) Hh4) as (s5 & df5 & Hr5 & Hh5 & Hn5 & Hf5).
  rewrite (run_bind _ _ _ _ _ Hr5). carry Hf5 df4.
  destruct (step_frame _ _ data s5 df5 (williams_r_returns data)
              (williams_r_touches data) Hh5) as (s6 & df6 & Hr6 & Hh6 & Hn6 & Hf6).
  rewrite (run_bind _ _ _ _ _ Hr6). carry Hf6 df5.
  destruct (step_frame _ _ data s6 df6 (atr_returns data)
              (atr_touches data) Hh6) as (s7 & df7 & Hr7 & Hh7 & Hn7 & Hf7).
  rewrite (run_bind _ _ _ _ _ Hr7). carry Hf7 df6.
  (* volume indicators *)
  destruct (volume_indicators_run data df7 s7 high low close volume
              Hh7 Hhigh Hlow Hclose Hvolume)
    as (s8 & df8 & Hr8 & Hh8 & Hn8 & Hobv & Hmfi).
  pose proof (step_frame_of_run _ _ _ _ _ _ _
                (volume_indicators_touches data) Hh7 Hr8 Hh8) as Hf8.
  rewrite (run_bind _ _ _ _ _ Hr8). carry Hf8 df7.
  (* momentum and trend *)
  destruct (step_frame _ _ data s8 df8 (momentum_indicators_returns data)
              (momentum_indicators_touches data) Hh8)
    as (s9 & df9 & Hr9 & Hh9 & Hn9 & Hf9).
  rewrite (run_bind _ _ _ _ _ Hr9). carry Hf9 df8.
  destruct (step_frame _ _ data s9 df9 (trend_indicators_returns data)
              (trend_indicators_touches data) Hh9)
    as (s10 & df10 & Hr10 & Hh10 & Hn10 & Hf10).
  rewrite (run_bind _ _ _ _ _ Hr10). carry Hf10 df9.
  exists s10, df10. split; [reflexivity |]. split; [done |].
  split; [congruence |]. repeat split; done.
Qed.

End Pipeline.

(** ** Lengths and last values of derived series *)

Lemma length_rolling (w : nat) (agg : list float → float) (s : Series) :
  length (rolling w agg s) = length s.
Proof. unfold rolling. by rewrite length_fmap, length_seq. Qed.

Lemma lookup_rolling (w : nat) (agg : list float → float) (s : Series) (i : nat) :
  (i < length s)%nat →
  rolling w agg s !! i
  = Some (if (i + 1 <? w)%nat then NaN
          else
            let win := prep <$> take w (drop (i + 1 - w) s) in
            if existsb isna win then NaN else agg win).
Proof.
  intros Hi. unfold rolling. rewrite list_lookup_fmap, lookup_seq_lt by done.
  reflexivity.
Qed.



Lemma length_shift (k : nat) (s : Series) : length (shift k s) = length s.
Proof.
  unfold shift. rewrite length_app, length_replicate, length_take. lia.
Qed.

Lemma length_diff (s : Series) : length (diff s) = length s.
Proof.
  unfold diff, series_sub. rewrite length_zip_with, length_shift. lia.
Qed.








Lemma iloc_neg_inv (k : nat) (s : Series) (x : float) :
  iloc_neg k s = Ok x → (k ≤ length s)%nat ∧ s !! (length s - k)%nat = Some x.
Proof.
  unfold iloc_neg. destruct (k <=? length s)%nat eqn:Hk; [| discriminate].
  apply Nat.leb_le in Hk. destruct (s !! (length s - k)%nat); [| discriminate].
  intros [= ->]. done.
Qed.

(** With fewer than [w] bars, the latest rolling value is missing. *)
Lemma rolling_last_short (w : nat) (agg : list float → float) (s : Series) (x : float) :
  (length s < w)%nat → iloc_neg 1 (rolling w agg s) = Ok x → x = NaN.
Proof.
  intros Hshort [Hlen Hx]%iloc_neg_inv. rewrite length_rolling in Hlen, Hx.
  rewrite lookup_rolling in Hx by lia.
  replace (length s - 1 + 1 <? w)%nat with true in Hx
    by (symmetry; apply Nat.ltb_lt; lia).
  congruence.
Qed.


Section Generators.
Context `{env : Env}.



(** ** C5: Golden Cross and Death Cross *)

(** C5.  On a table whose SMA_20 and SMA_50 are defined at the last bar (and
    readable at the bar before), the Moving-Averages signal is buy, with
    strength 0.8 and the Golden Cross reason, exactly when SMA_20 was at or
    below SMA_50 at the previous bar and is above it at the last bar; it is
    sell, with strength 0.8 and the Death Cross reason, exactly under the
    mirrored condition; and it is hold otherwise. *)
Theorem ma_signal_golden_death_cross (data : loc) (df : DataFrame) (st : state)
    (c s20 s50 s200 p20 p50 : float) :
  heap st !! data = Some df →
  col_at df "Close" 1 c → col_at df "SMA_20" 1 s20 → col_at df "SMA_50" 1 s50 →
  col_at df "SMA_200" 1 s200 →
  col_at df "SMA_20" 2 p20 → col_at df "SMA_50" 2 p50 →
  isna s20 = false → isna s50 = false →
  ∃ r : Signal,
    _generate_ma_signals data st = (st, Ok r)
    ∧ (signal r = Some "buy" ↔ fle p20 p50 = true ∧ fgt s20 s50 = true)
    ∧ (signal r = Some "buy" →
         strength r = Some (Fin 0.8)
         ∧ reason r = Some "Golden Cross (20 SMA crosses above 50 SMA)")
    ∧ (signal r = Some "sell" ↔ fge p20 p50 = true ∧ flt s20 s50 = true)
    ∧ (signal r = Some "sell" →
         strength r = Some (Fin 0.8)
         ∧ reason r = Some "Death Cross (20 SMA crosses below 50 SMA)")
    ∧ (signal r = Some "hold" ↔
         ¬ (fle p20 p50 = true ∧ fgt s20 s50 = true)
         ∧ ¬ (fge p20 p50 = true ∧ flt s20 s50 = true)).
Proof.
  intros Hdf Hc H20 H50 H200 Hp20 Hp50 Hn20 Hn50.
  eexists. split; [by eapply ma_signals_run |].
  destruct (fgt s20 s50) eqn:Hgt.
  - pose proof (flt_asym s50 s20 Hgt) as Hlt. rewrite Hlt.
    destruct (fle p20 p50) eqn:Hle; simpl.
    + repeat split; try done; try (intros; discriminate).
      * by intros [_ ?].
      * intros [H _]. by destruct H.
    + repeat split; try done; try (intros; discriminate).
      * by intros [? _].
      * by intros [_ ?].
      * by intros [? _].
      * by intros [_ ?].
  - destruct (flt s20 s50) eqn:Hlt, (fge p20 p50) eqn:Hge; simpl;
      repeat split; try done; try (intros; discriminate);
      try (by intros [_ ?]); try (by intros [? _]).
    intros [_ H]. by destruct H.
Qed.

(** C10.  When SMA_20 and SMA_50 are defined at the last bar and SMA_200 is
    missing there, as it is on every series shorter than 200 bars, the
    Moving-Averages signal reports the trend [bearish], whatever the
    prices. *)
Theorem ma_trend_bearish_without_sma200 (data : loc) (df : DataFrame) (st : state)
    (close : Series) (c s20 s50 s200 p20 p50 : float) :
  heap st !! data = Some df →
  (length close < 200)%nat →
  columns df !! "SMA_200" = Some (rolling 200 fmean close) →
  col_at df "Close" 1 c → col_at df "SMA_20" 1 s20 → col_at df "SMA_50" 1 s50 →
  col_at df "SMA_200" 1 s200 →
  col_at df "SMA_20" 2 p20 → col_at df "SMA_50" 2 p50 →
  isna s20 = false → isna s50 = false →
  s200 = NaN
  ∧ ∃ r : Signal,
      _generate_ma_signals data st = (st, Ok r)
      ∧ extra r !! "trend" = Some (VStr "bearish").
Proof.
  intros Hdf Hshort H200col Hc H20 H50 H200 Hp20 Hp50 Hn20 Hn50.
  assert (Hnan : s200 = NaN).
  { destruct H200 as (s & Hs & Hi). rewrite H200col in Hs. injection Hs as <-.
    by eapply rolling_last_short. }
  split; [done |]. subst s200.
  eexists. split; [by eapply ma_signals_run |].
  assert (Hcmp : fgt c NaN = false) by (unfold fgt; by destruct c).
  rewrite Hcmp.
  destruct (fgt s20 s50 && fle p20 p50); [done |].
  destruct (flt s20 s50 && fge p20 p50); done.
Qed.

(** ** Family signals on a table: totality and missing inputs *)






(** ** Short series *)









(** ** C6: family signals never raise *)


End Generators.

(** ** C7: saturation of RSI and MFI *)

(** The transform [100 - 100 / (1 + gain / loss)] at zero loss and positive
    gain: the ratio is [+inf] and the value is 100. *)
Lemma saturation_at_zero_loss (g l : Q) :
  (0 < g)%Q → (l == 0)%Q →
  fsub (Fin 100) (fdiv (Fin 100) (fadd (Fin 1) (fdiv (Fin g) (Fin l)))) = Fin 100.
Proof.
  intros Hg Hl. unfold fdiv at 2.
  rewrite (proj2 (Qeq_bool_iff l 0) Hl).
  rewrite (proj1 (Qgt_alt g 0) Hg). reflexivity.
Qed.

Lemma lookup_hundred_minus (r : Series) (i : nat) (x : float) :
  r !! i = Some x →
  hundred_minus r !! i
  = Some (fsub (Fin 100) (fdiv (Fin 100) (fadd (Fin 1) x))).
Proof. intros H. unfold hundred_minus. by rewrite list_lookup_fmap, H. Qed.

Lemma lookup_series_div (a b : Series) (i : nat) (x y : float) :
  a !! i = Some x → b !! i = Some y → series_div a b !! i = Some (fdiv x y).
Proof. intros Ha Hb. unfold series_div. by rewrite lookup_zip_with, Ha, Hb. Qed.

(** RSI at a bar where the average loss is zero and the average gain is
    positive. *)
Lemma manual_rsi_saturates (close : Series) (i : nat) (g l : Q) :
  rsi_gain close !! i = Some (Fin g) → rsi_loss close !! i = Some (Fin l) →
  (0 < g)%Q → (l == 0)%Q →
  manual_rsi close !! i = Some (Fin 100).
Proof.
  intros Hgain Hloss Hg Hl. unfold manual_rsi.
  rewrite (lookup_hundred_minus _ _ _ (lookup_series_div _ _ _ _ _ Hgain Hloss)).
  by rewrite saturation_at_zero_loss.
Qed.

(** MFI at a bar where the negative flow is zero and the positive flow is
    positive. *)
Lemma mfi_saturates (high low close volume : Series) (i : nat) (p n : Q) :
  mfi_positive_flow high low close volume !! i = Some (Fin p) →
  mfi_negative_flow high low close volume !! i = Some (Fin n) →
  (0 < p)%Q → (n == 0)%Q →
  mfi_series high low close volume !! i = Some (Fin 100).
Proof.
  intros Hpos Hneg Hp Hn. unfold mfi_series.
  rewrite (lookup_hundred_minus _ _ _ (lookup_series_div _ _ _ _ _ Hpos Hneg)).
  by rewrite saturation_at_zero_loss.
Qed.

(** Sums of finite values. *)
Lemma fold_fadd_fin (l : list float) (acc : Q) :
  Forall (λ x, ∃ q, x = Fin q ∧ (0 <= q)%Q) l →
  ∃ q, fold_left fadd l (Fin acc) = Fin q ∧ (acc <= q)%Q
       ∧ (Exists (λ x, ∃ q', x = Fin q' ∧ (0 < q')%Q) l → (acc < q)%Q).
Proof.
  revert acc. induction l as [| x r IH]; intros acc Hall.
  - exists acc. repeat split; [lra |]. intros H. inversion H.
  - inversion Hall as [| ? ? (q0 & -> & Hq0) Hr]; subst.
    destruct (IH (acc + q0)%Q Hr) as (q & Hq & Hle & Hlt).
    exists q. simpl. split; [done |]. split; [lra |].
    intros Hex. inversion Hex as [? ? (q' & Heq & Hpos) | ? ? Hex']; subst.
    + injection Heq as <-. lra.
    + specialize (Hlt Hex'). lra.
Qed.

Lemma fold_fadd_zero (l : list float) (acc : Q) :
  Forall (λ x, ∃ q, x = Fin q ∧ (q == 0)%Q) l →
  ∃ q, fold_left fadd l (Fin acc) = Fin q ∧ (q == acc)%Q.
Proof.
  revert acc. induction l as [| x r IH]; intros acc Hall.
  - by exists acc.
  - inversion Hall as [| ? ? (q0 & -> & Hq0) Hr]; subst.
    destruct (IH (acc + q0)%Q Hr) as (q & Hq & Heq).
    exists q. simpl. split; [done |]. lra.
Qed.

Lemma prep_fin (l : list float) :
  Forall (λ x, ∃ q, x = Fin q) l → prep <$> l = l ∧ existsb isna l = false.
Proof.
  induction 1 as [| x r (q & ->) _ [IH1 IH2]]; [done |].
  split; [| exact IH2].
  change (prep <$> Fin q :: r) with (Fin q :: (prep <$> r)). by rewrite IH1.
Qed.

Lemma lookup_window (w k : nat) (s : Series) (j : nat) (x : float) :
  take w (drop k s) !! j = Some x → (j < w)%nat ∧ s !! (k + j)%nat = Some x.
Proof.
  intros H. destruct (decide (j < w)%nat) as [Hj | Hj].
  - rewrite lookup_take_lt, lookup_drop in H by done. done.
  - rewrite lookup_take_ge in H by lia. discriminate.
Qed.

Lemma length_window (w i : nat) (s : Series) :
  (w ≤ i + 1)%nat → (i < length s)%nat →
  length (take w (drop (i + 1 - w) s)) = w.
Proof. intros Hw Hi. rewrite length_take, length_drop. lia. Qed.

Lemma inject_nat_pos (w : nat) : (1 ≤ w)%nat → (0 < inject_Z (Z.of_nat w))%Q.
Proof.
  intros Hw. change 0%Q with (inject_Z 0). rewrite <- Zlt_Qlt. lia.
Qed.

(** The rolling mean over a full window of non-negative finite values. *)
Lemma rolling_fmean_nonneg (w : nat) (s : Series) (i : nat) :
  (1 ≤ w)%nat → (w ≤ i + 1)%nat → (i < length s)%nat →
  Forall (λ x, ∃ q, x = Fin q ∧ (0 <= q)%Q) (take w (drop (i + 1 - w) s)) →
  ∃ g, rolling w fmean s !! i = Some (Fin g) ∧ (0 <= g)%Q
       ∧ (Exists (λ x, ∃ q', x = Fin q' ∧ (0 < q')%Q) (take w (drop (i + 1 - w) s))
          → (0 < g)%Q).
Proof.
  intros Hw1 Hw Hi Hall. rewrite lookup_rolling by done.
  replace (i + 1 <? w)%nat with false by (symmetry; apply Nat.ltb_ge; lia).
  cbv zeta.
  destruct (prep_fin (take w (drop (i + 1 - w) s))) as [Hprep Hna].
  { eapply Forall_impl; [exact Hall |]. intros x (q & -> & _). by exists q. }
  rewrite Hprep, Hna. unfold fmean, fsum. rewrite length_window by done.
  destruct (fold_fadd_fin _ 0 Hall) as (q & -> & Hq & Hpos).
  pose proof (inject_nat_pos w Hw1) as Hwpos. cbn [fdiv].
  destruct (Qeq_bool (inject_Z (Z.of_nat w)) 0) eqn:Hz; q_props; [lra |].
  eexists. split; [reflexivity |]. split.
  - apply Qle_shift_div_l; [done | lra].
  - intros Hex. specialize (Hpos Hex). apply Qlt_shift_div_l; [done | lra].
Qed.

(** The rolling mean over a full window of zeros. *)
Lemma rolling_fmean_zero (w : nat) (s : Series) (i : nat) :
  (1 ≤ w)%nat → (w ≤ i + 1)%nat → (i < length s)%nat →
  Forall (λ x, ∃ q, x = Fin q ∧ (q == 0)%Q) (take w (drop (i + 1 - w) s)) →
  ∃ l, rolling w fmean s !! i = Some (Fin l) ∧ (l == 0)%Q.
Proof.
  intros Hw1 Hw Hi Hall. rewrite lookup_rolling by done.
  replace (i + 1 <? w)%nat with false by (symmetry; apply Nat.ltb_ge; lia).
  cbv zeta.
  destruct (prep_fin (take w (drop (i + 1 - w) s))) as [Hprep Hna].
  { eapply Forall_impl; [exact Hall |]. intros x (q & -> & _). by exists q. }
  rewrite Hprep, Hna. unfold fmean, fsum. rewrite length_window by done.
  destruct (fold_fadd_zero _ 0 Hall) as (q & -> & Hq).
  pose proof (inject_nat_pos w Hw1) as Hwpos. cbn [fdiv].
  destruct (Qeq_bool (inject_Z (Z.of_nat w)) 0) eqn:Hz; q_props; [lra |].
  eexists. split; [reflexivity |]. rewrite Hq. field. lra.
Qed.

Lemma lookup_shift1 (s : Series) (j : nat) :
  (j < length s)%nat →
  shift 1 s !! j
  = Some (match j with O => NaN | S j' => default NaN (s !! j') end).
Proof.
  intros Hj. unfold shift.
  replace (1 `min` length s)%nat with 1%nat by lia. simpl replicate.
  destruct j as [| j']; [done |].
  change (([NaN] ++ take (length s - 1) s) !! S j')
    with (take (length s - 1) s !! j').
  rewrite lookup_take_lt by lia.
  destruct (lookup_lt_is_Some_2 s j') as [x Hx]; [lia |]. by rewrite Hx.
Qed.

(** The deltas of a series of finite closes. *)
Lemma lookup_diff_fin (qs : list Q) (j : nat) (b : Q) :
  qs !! j = Some b →
  diff (Fin <$> qs) !! j
  = Some (match j with
          | O => NaN
          | S j' => match qs !! j' with
                    | Some a => Fin (b + - a)
                    | None => NaN
                    end
          end).
Proof.
  intros Hb. unfold diff, series_sub.
  assert (Hj : (j < length qs)%nat) by (apply lookup_lt_is_Some; eauto).
  rewrite lookup_zip_with, list_lookup_fmap, Hb. cbn [fmap option_fmap option_map mbind option_bind].
  rewrite lookup_shift1 by (by rewrite length_fmap). cbn [mbind option_bind].
  destruct j as [| j']; [done |].
  rewrite list_lookup_fmap. by destruct (qs !! j').
Qed.

Lemma lookup_diff_delta (qs : list Q) (k : nat) :
  (k < length qs)%nat → diff (Fin <$> qs) !! k = Some (delta_at qs k).
Proof.
  intros Hk. destruct (lookup_lt_is_Some_2 qs k Hk) as [b Hb].
  rewrite (lookup_diff_fin qs k b Hb). unfold delta_at.
  destruct k as [| k']; [done |]. rewrite Hb. by destruct (qs !! k').
Qed.

Lemma lookup_gains (qs : list Q) (k : nat) :
  (k < length qs)%nat →
  series_where (diff (Fin <$> qs)) (series_gt0 (diff (Fin <$> qs))) (Fin 0) !! k
  = Some (if fgt (delta_at qs k) (Fin 0) then delta_at qs k else Fin 0).
Proof.
  intros Hk. unfold series_where, series_gt0.
  rewrite lookup_zip_with, list_lookup_fmap, lookup_diff_delta by done.
  reflexivity.
Qed.

Lemma lookup_losses (qs : list Q) (k : nat) :
  (k < length qs)%nat →
  series_neg
    (series_where (diff (Fin <$> qs)) (series_lt0 (diff (Fin <$> qs))) (Fin 0)) !! k
  = Some (fneg (if flt (delta_at qs k) (Fin 0) then delta_at qs k else Fin 0)).
Proof.
  intros Hk. unfold series_neg, series_where, series_lt0.
  rewrite list_lookup_fmap, lookup_zip_with, list_lookup_fmap,
    lookup_diff_delta by done.
  reflexivity.
Qed.

Lemma delta_at_cases (qs : list Q) (k : nat) :
  delta_at qs k = NaN ∨ ∃ d, delta_at qs k = Fin d.
Proof.
  unfold delta_at. destruct k as [| k']; [by left |].
  destruct (qs !! k'), (qs !! S k'); eauto.
Qed.

Lemma length_gains (qs : list Q) :
  length (series_where (diff (Fin <$> qs)) (series_gt0 (diff (Fin <$> qs))) (Fin 0))
  = length qs.
Proof.
  unfold series_where, series_gt0.
  rewrite length_zip_with, length_fmap, length_diff, length_fmap. lia.
Qed.

Lemma length_losses (qs : list Q) :
  length (series_neg
            (series_where (diff (Fin <$> qs)) (series_lt0 (diff (Fin <$> qs)))
               (Fin 0)))
  = length qs.
Proof.
  unfold series_neg, series_where, series_lt0.
  rewrite length_fmap, length_zip_with, length_fmap, length_diff, length_fmap. lia.
Qed.

(** The average gain over a window that holds a gain is positive. *)
Lemma rsi_gain_window (qs : list Q) (i : nat) :
  (rsi_period ≤ i + 1)%nat → (i < length qs)%nat → window_has_gain qs i →
  ∃ g, rsi_gain (Fin <$> qs) !! i = Some (Fin g) ∧ (0 < g)%Q.
Proof.
  intros Hw Hi (k & d & Hk1 & Hk2 & Hd & Hpos). unfold rsi_gain.
  destruct (rolling_fmean_nonneg rsi_period
              (series_where (diff (Fin <$> qs)) (series_gt0 (diff (Fin <$> qs)))
                 (Fin 0)) i) as (g & Hg & _ & Hgpos).
  - unfold rsi_period, Config.RSI_PERIOD. lia.
  - done.
  - by rewrite length_gains.
  - apply Forall_lookup. intros j x [Hj Hx]%lookup_window.
    rewrite lookup_gains in Hx
      by (unfold rsi_period, Config.RSI_PERIOD in *; lia).
    injection Hx as <-.
    destruct (delta_at_cases qs (i + 1 - rsi_period + j)) as [-> | [d' ->]].
    + exists 0%Q. split; [done | lra].
    + unfold fgt. cbn [flt]. destruct (Qltb 0 d') eqn:E; q_props.
      * exists d'. split; [done | lra].
      * exists 0%Q. split; [done | lra].
  - exists g. split; [done |]. apply Hgpos.
    apply Exists_exists. exists (Fin d). split; [| by exists d].
    apply list_elem_of_lookup. exists (k - (i + 1 - rsi_period))%nat.
    unfold rsi_period, Config.RSI_PERIOD in *.
    rewrite lookup_take_lt, lookup_drop by lia.
    replace (i + 1 - 14 + (k - (i + 1 - 14)))%nat with k by lia.
    rewrite lookup_gains by lia. rewrite Hd. unfold fgt. cbn [flt].
    by rewrite (proj2 (Qltb_lt 0 d) Hpos).
Qed.

(** The average loss over a window without a loss is zero. *)
Lemma rsi_loss_window (qs : list Q) (i : nat) :
  (rsi_period ≤ i + 1)%nat → (i < length qs)%nat → window_non_negative qs i →
  ∃ l, rsi_loss (Fin <$> qs) !! i = Some (Fin l) ∧ (l == 0)%Q.
Proof.
  intros Hw Hi Hnn. unfold rsi_loss.
  apply rolling_fmean_zero.
  - unfold rsi_period, Config.RSI_PERIOD. lia.
  - done.
  - by rewrite length_losses.
  - apply Forall_lookup. intros j x [Hj Hx]%lookup_window.
    rewrite lookup_losses in Hx
      by (unfold rsi_period, Config.RSI_PERIOD in *; lia).
    injection Hx as <-.
    destruct (delta_at_cases qs (i + 1 - rsi_period + j)) as [-> | [d' Hd']].
    + exists (- 0)%Q. split; [done | lra].
    + rewrite Hd'. cbn [flt].
      assert (Hge : (0 <= d')%Q) by (eapply Hnn; [| | exact Hd']; lia).
      rewrite (proj2 (Qltb_ge d' 0) Hge).
      exists (- 0)%Q. split; [done | lra].
Qed.

Section Saturation.
Context `{env : Env}.

(** C7.  After the indicator computation (talib not available) the RSI
    value is exactly 100 at every bar whose 14-bar window has zero average
    loss and a positive average gain, in particular at every bar of a
    series of finite closes whose deltas over the window are all
    non-negative with one of them positive; and the MFI value is exactly
    100 at every bar whose 14-bar negative money flow is zero and positive
    flow is positive.  The zero denominators raise nothing: the computation
    returns and both columns are assigned. *)
Theorem rsi_mfi_saturate_at_100 (data : loc) (df : DataFrame) (st : state)
    (open high low close volume : Series) (i : nat) :
  talib = None →
  heap st !! data = Some df → df_empty df = false →
  columns df !! "Open" = Some open → columns df !! "High" = Some high →
  columns df !! "Low" = Some low → columns df !! "Close" = Some close →
  columns df !! "Volume" = Some volume →
  ∃ st' df' rsi mfi,
    calculate_all_indicators data st = (st', Ok data)
    ∧ heap st' !! data = Some df'
    ∧ columns df' !! "RSI" = Some rsi
    ∧ columns df' !! "MFI" = Some mfi
    ∧ (∀ g l : Q,
         rsi_gain close !! i = Some (Fin g) → rsi_loss close !! i = Some (Fin l) →
         (0 < g)%Q → (l == 0)%Q → rsi !! i = Some (Fin 100))
    ∧ (∀ qs : list Q,
         close = Fin <$> qs →
         (rsi_period ≤ i + 1)%nat → (i < length qs)%nat →
         window_non_negative qs i → window_has_gain qs i →
         rsi !! i = Some (Fin 100))
    ∧ (∀ p n : Q,
         mfi_positive_flow high low close volume !! i = Some (Fin p) →
         mfi_negative_flow high low close volume !! i = Some (Fin n) →
         (0 < p)%Q → (n == 0)%Q → mfi !! i = Some (Fin 100)).
Proof.
  intros Htalib Hdf Hne Hopen Hhigh Hlow Hclose Hvolume.
  destruct (calculate_all_indicators_manual data df st open high low close volume)
    as (st' & df' & Hrun & Hdf' & Hrows & Hc & Hv & H20 & H50 & H200 & Hrsi & Hmacd
        & Hmacds & Hmacdh & Hbbu & Hbbl & Hbbp & Hobv & Hmfi); try done.
  exists st', df', (manual_rsi close), (mfi_series high low close volume).
  repeat split; try done.
  - intros g l. apply manual_rsi_saturates.
  - intros qs -> Hw Hi Hnn Hgain.
    destruct (rsi_gain_window qs i Hw Hi Hgain) as (g & Hg & Hgpos).
    destruct (rsi_loss_window qs i Hw Hi Hnn) as (l & Hl & Hl0).
    by eapply manual_rsi_saturates.
  - intros p n. apply mfi_saturates.
Qed.

End Saturation.

(** ** C8: Bollinger position *)



Section Bollinger.
Context `{env : Env}.



End Bollinger.


(** * The properties on concrete inputs *)

Lemma readable_col_at (df : DataFrame) (name : string) (k : nat) :
  readable df name k = true → col_at df name k (value_at df name k).
Proof.
  unfold readable, col_at, value_at.
  destruct (columns df !! name) as [s |]; [| intros; discriminate].
  destruct (iloc_neg k s) as [x |] eqn:Hx; [| intros; discriminate].
  intros _. by exists s.
Qed.


(** On one bar the MACD is defined and equal to its signal line: the family
    signal is a hold, not a missing-data signal, and the previous bar is
    never consulted. *)
Example one_bar_macd_signal :
  let st := fst (calculate_all_indicators (env := example_env) 1%positive
                   (state_of one_bar)) in
  ∃ r, _generate_macd_signals 1%positive st = (st, Ok r)
       ∧ signal r = Some "hold" ∧ strength r = Some (Fin 0.5)
       ∧ reason r = Some "MACD no crossover".
Proof. vm_compute. eexists. repeat split. Qed.

(** On sixteen rising closes the RSI at the last bar is 100. *)
Example rising_rsi_is_100 :
  manual_rsi (Fin <$> rising_closes) !! 15%nat = Some (Fin 100).
Proof. vm_compute. reflexivity. Qed.

(** On [crossing_table] the 20-bar average crosses above the 50-bar average
    at the last bar. *)
Example crossing_values :
  value_at crossing_table "SMA_20" 2 = Fin (1800 # 20)
  ∧ value_at crossing_table "SMA_50" 2 = Fin (4800 # 50)
  ∧ value_at crossing_table "SMA_20" 1 = Fin (2010 # 20)
  ∧ value_at crossing_table "SMA_50" 1 = Fin (5000 # 50)
  ∧ value_at crossing_table "SMA_200" 1 = NaN.
Proof. vm_compute. repeat split. Qed.




Lemma empty_series_short_circuits_witness :
  calculate_all_indicators (env := example_env) 1%positive (state_of no_bars)
  = (state_of no_bars, Ok 1%positive)
  ∧ detect_patterns (env := example_env) 1%positive (state_of no_bars)
    = (state_of no_bars, Ok ∅)
  ∧ generate_signals (env := example_env) 1%positive (state_of no_bars)
    = (state_of no_bars, Ok ∅).
Proof.
  apply (empty_series_short_circuits (env := example_env) 1%positive no_bars
           (state_of no_bars)).
  - vm_compute. reflexivity.
  - vm_compute. reflexivity.
Defined.

(** C5 on [crossing_table]: the Golden Cross fires at the last bar. *)
Lemma ma_signal_golden_death_cross_witness :
  ∃ r : Signal,
    _generate_ma_signals 1%positive (state_of crossing_table)
    = (state_of crossing_table, Ok r)
    ∧ signal r = Some "buy" ∧ strength r = Some (Fin 0.8)
    ∧ reason r = Some "Golden Cross (20 SMA crosses above 50 SMA)".
Proof.
  destruct (ma_signal_golden_death_cross 1%positive crossing_table
              (state_of crossing_table)
              (value_at crossing_table "Close" 1)
              (value_at crossing_table "SMA_20" 1)
              (value_at crossing_table "SMA_50" 1)
              (value_at crossing_table "SMA_200" 1)
              (value_at crossing_table "SMA_20" 2)
              (value_at crossing_table "SMA_50" 2))
    as (r & Hrun & Hbuy & Hstrength & _).
  - vm_compute. reflexivity.
  - apply readable_col_at. vm_compute. reflexivity.
  - apply readable_col_at. vm_compute. reflexivity.
  - apply readable_col_at. vm_compute. reflexivity.
  - apply readable_col_at. vm_compute. reflexivity.
  - apply readable_col_at. vm_compute. reflexivity.
  - apply readable_col_at. vm_compute. reflexivity.
  - vm_compute. reflexivity.
  - vm_compute. reflexivity.
  - exists r. split; [exact Hrun |].
    assert (Hb : signal r = Some "buy")
      by (apply Hbuy; split; vm_compute; reflexivity).
    split; [exact Hb |]. exact (Hstrength Hb).
Defined.

(** C10 on [crossing_table]: 51 bars, SMA_200 missing, trend bearish although
    the last close is far above every average. *)
Lemma ma_trend_bearish_without_sma200_witness :
  value_at crossing_table "SMA_200" 1 = NaN
  ∧ ∃ r : Signal,
      _generate_ma_signals 1%positive (state_of crossing_table)
      = (state_of crossing_table, Ok r)
      ∧ extra r !! "trend" = Some (VStr "bearish").
Proof.
  apply (ma_trend_bearish_without_sma200 1%positive crossing_table
           (state_of crossing_table) (Fin <$> crossing_closes)
           (value_at crossing_table "Close" 1)
           (value_at crossing_table "SMA_20" 1)
           (value_at crossing_table "SMA_50" 1)
           (value_at crossing_table "SMA_200" 1)
           (value_at crossing_table "SMA_20" 2)
           (value_at crossing_table "SMA_50" 2)).
  - vm_compute. reflexivity.
  - vm_compute. lia.
  - reflexivity.
  - apply readable_col_at. vm_compute. reflexivity.
  - apply readable_col_at. vm_compute. reflexivity.
  - apply readable_col_at. vm_compute. reflexivity.
  - apply readable_col_at. vm_compute. reflexivity.
  - apply readable_col_at. vm_compute. reflexivity.
  - apply readable_col_at. vm_compute. reflexivity.
  - vm_compute. reflexivity.
  - vm_compute. reflexivity.
Defined.


Lemma rising_window_non_negative : window_non_negative rising_closes 15.
Proof.
  intros k d _ Hhi Hd.
  do 16 (destruct k as [| k];
         [ vm_compute in Hd; first [ discriminate Hd
                                   | injection Hd as <-; vm_compute; intros H;
                                     discriminate H ] |]).
  lia.
Qed.

Lemma rising_window_has_gain : window_has_gain rising_closes 15.
Proof.
  exists 15%nat, 1%Q. split; [vm_compute; lia |]. split; [lia |].
  split; vm_compute; reflexivity.
Qed.

(** C7 on sixteen rising closes: the RSI assigned at the last bar is 100. *)
Lemma rsi_mfi_saturate_at_100_witness :
  ∃ st' df' rsi,
    calculate_all_indicators (env := example_env) 1%positive (state_of rising_bars)
    = (st', Ok 1%positive)
    ∧ heap st' !! 1%positive = Some df'
    ∧ columns df' !! "RSI" = Some rsi
    ∧ rsi !! 15%nat = Some (Fin 100).
Proof.
  destruct (rsi_mfi_saturate_at_100 (env := example_env) 1%positive rising_bars
              (state_of rising_bars)
              (Fin <$> rising_closes) (Fin <$> rising_closes)
              (Fin <$> rising_closes) (Fin <$> rising_closes)
              (Fin <$> ((λ _ : nat, 1000%Q) <$> seq 0 16)) 15)
    as (st' & df' & rsi & mfi & Hrun & Hdf' & Hrsi & _ & _ & Hsat & _).
  - reflexivity.
  - vm_compute. reflexivity.
  - vm_compute. reflexivity.
  - vm_compute. reflexivity.
  - vm_compute. reflexivity.
  - vm_compute. reflexivity.
  - vm_compute. reflexivity.
  - vm_compute. reflexivity.
  - exists st', df', rsi.
    split; [exact Hrun |]. split; [exact Hdf' |]. split; [exact Hrsi |].
    apply (Hsat rising_closes).
    + reflexivity.
    + vm_compute. lia.
    + vm_compute. lia.
    + exact rising_window_non_negative.
    + exact rising_window_has_gain.
Defined.



